(** * ImageGenerator: a shallow embedding of the Gemini image-edit front end

    The development follows the TypeScript sources:
    - [services/geminiService.ts] in its two revisions (the one that reads
      the model from storage and recognises quota errors, and the one under
      [src/services] that [src/App.tsx] imports),
    - [src/App.tsx]: the gallery effects, [removeFile], [handleGenerate] and
      [handleDeleteImage].

    JavaScript strings are modelled as their UTF-8 bytes ([string]); every
    needle the code searches for is ASCII, so a byte-wise search agrees with
    [String.prototype.includes].  [localStorage] is a finite map from keys to
    values with a quota: the gallery entry, which carries whole images, is
    charged against the room that is [free], and a write of it that does not
    fit throws, as [setItem] does on a full store.  The key and the model
    entries are a few dozen characters and the sources have no error path
    for their writes; they are not charged.  The remote service, the clock
    and the file reader are oracles collected in [Env]; everything the code
    mutates outside React state lives in [World]. *)

From Stdlib Require Import String Ascii List Bool Arith NArith Lia.
From stdpp Require Import base option gmap strings pretty.

Import ListNotations.
Local Open Scope string_scope.
Local Open Scope list_scope.

(* ===================================================================== *)
(** ** JavaScript values used by the sources *)
(* ===================================================================== *)

Module JS.

(** The double-quote character, code 34; one needle of the sources has it. *)
Definition dquote : string := String "034"%char EmptyString.

(** Truthiness of a string: only the empty string is falsy. *)
Definition truthy (s : string) : bool :=
  match s with
  | EmptyString => false
  | String _ _ => true
  end.

(** Truthiness of [string | null | undefined]. *)
Definition truthy_opt (o : option string) : bool :=
  match o with
  | Some s => truthy s
  | None => false
  end.

(** [hay.includes(needle)]. *)
Fixpoint includes (hay needle : string) : bool :=
  String.prefix needle hay ||
  match hay with
  | EmptyString => false
  | String _ rest => includes rest needle
  end.

(** A value of type [string | undefined] spliced into a template literal. *)
Definition tmpl (o : option string) : string :=
  match o with
  | Some s => s
  | None => "undefined"
  end.

(** [s.split(',')[1]]: the text between the first and the second comma,
    [undefined] when [s] has no comma. *)
Fixpoint upto_comma (s : string) : string :=
  match s with
  | EmptyString => EmptyString
  | String c rest =>
      if Ascii.eqb c ","%char then EmptyString else String c (upto_comma rest)
  end.

Fixpoint after_comma (s : string) : option string :=
  match s with
  | EmptyString => None
  | String c rest =>
      if Ascii.eqb c ","%char then Some rest else after_comma rest
  end.

Definition split_comma_1 (s : string) : option string :=
  match after_comma s with
  | Some rest => Some (upto_comma rest)
  | None => None
  end.

(** A thrown value; the sources only ever read its [message]. *)
Record Error := mkError { message : option string }.

Definition new_Error (msg : string) : Error := mkError (Some msg).

End JS.

Import JS.

(* ===================================================================== *)
(** ** The SDK's request and response shapes *)
(* ===================================================================== *)

Record Blob := { mimeType : option string; data : option string }.
Record Part := { inlineData : option Blob; text : option string }.
Record Content := { parts : option (list Part) }.
Record Candidate := { content : option Content }.
Record GenerateContentResponse := { candidates : option (list Candidate) }.

(** [ai.models.generateContent] is called in two shapes: the text-only probe
    of [validateApiKey] and the image-plus-prompt request of
    [editImageWithPrompt] (response modality fixed to IMAGE). *)
Inductive Request :=
| TextRequest (apiKey model contents : string)
| ImageEditRequest (apiKey model inline_data inline_mimeType prompt : string).

Inductive Outcome :=
| Resolved (response : GenerateContentResponse)
| Rejected (error : Error).

(** types.ts, and the DOM [File] it extends (the fields the sources read). *)
Module Types.

Record File := { name : string; type : string }.

Record FileWithPreview := { file : File; preview : string }.

Record GeneratedImage := {
  id : string;
  url : string;
  prompt : string;
  originalFileName : string
}.

End Types.

Abbreviation File := Types.File.
Abbreviation FileWithPreview := Types.FileWithPreview.
Abbreviation GeneratedImage := Types.GeneratedImage.

(** [FileWithPreview extends File]. *)
Coercion Types.file : Types.FileWithPreview >-> Types.File.

Inductive PermissionState := granted | denied | prompt_.

(** The collaborators of the program.  The remote service and the clock are
    indexed by the number of earlier calls, so that two identical requests
    may be answered differently. *)
Record Env := {
  remote : nat -> Request -> Outcome;
  Date_now : nat -> N;
  readAsDataURL : File -> option string;
  JSON_parse : string -> option (list GeneratedImage);
  pickerSupported : bool;
  queryPermission : PermissionState;
  requestPermission : PermissionState;
  writeFile : string -> string -> option Error
}.

(* ===================================================================== *)
(** ** A state-and-exception monad for [async] functions *)
(* ===================================================================== *)

Inductive Completion (A : Type) :=
| Normal (a : A)
| Throw (e : Error).
Arguments Normal {A} a.
Arguments Throw {A} e.

(** Ghost events: where [handleGenerate] starts to await an edit call and
    where that call settles. *)
Inductive Event :=
| EditStarted (f : FileWithPreview)
| EditSettled (f : FileWithPreview) (c : Completion (option string)).

(** Everything outside React state that the program reads or mutates. *)
Record World := {
  localStorage : gmap string string;
  free : N;
  console : list string;
  alerts : list string;
  requests : list Request;
  clock_reads : nat;
  saved : list (string * string);
  trace : list Event
}.

Definition with_localStorage (f : gmap string string -> gmap string string)
  (w : World) : World :=
  {| localStorage := f (localStorage w); free := free w;
     console := console w;
     alerts := alerts w; requests := requests w;
     clock_reads := clock_reads w; saved := saved w; trace := trace w |}.

Definition with_console (f : list string -> list string) (w : World) : World :=
  {| localStorage := localStorage w; free := free w;
     console := f (console w);
     alerts := alerts w; requests := requests w;
     clock_reads := clock_reads w; saved := saved w; trace := trace w |}.

Definition with_alerts (f : list string -> list string) (w : World) : World :=
  {| localStorage := localStorage w; free := free w;
     console := console w;
     alerts := f (alerts w); requests := requests w;
     clock_reads := clock_reads w; saved := saved w; trace := trace w |}.

Definition with_requests (f : list Request -> list Request) (w : World) : World :=
  {| localStorage := localStorage w; free := free w;
     console := console w;
     alerts := alerts w; requests := f (requests w);
     clock_reads := clock_reads w; saved := saved w; trace := trace w |}.

Definition with_clock_reads (f : nat -> nat) (w : World) : World :=
  {| localStorage := localStorage w; free := free w;
     console := console w;
     alerts := alerts w; requests := requests w;
     clock_reads := f (clock_reads w); saved := saved w; trace := trace w |}.

Definition with_saved (f : list (string * string) -> list (string * string))
  (w : World) : World :=
  {| localStorage := localStorage w; free := free w;
     console := console w;
     alerts := alerts w; requests := requests w;
     clock_reads := clock_reads w; saved := f (saved w); trace := trace w |}.

Definition with_trace (f : list Event -> list Event) (w : World) : World :=
  {| localStorage := localStorage w; free := free w;
     console := console w;
     alerts := alerts w; requests := requests w;
     clock_reads := clock_reads w; saved := saved w; trace := f (trace w) |}.

Definition with_free (f : N -> N) (w : World) : World :=
  {| localStorage := localStorage w; free := f (free w);
     console := console w;
     alerts := alerts w; requests := requests w;
     clock_reads := clock_reads w; saved := saved w; trace := trace w |}.

Definition M (A : Type) : Type := World -> Completion A * World.

Definition ret {A} (a : A) : M A := fun w => (Normal a, w).

Definition throw {A} (e : Error) : M A := fun w => (Throw e, w).

Definition bind {A B} (c : M A) (k : A -> M B) : M B :=
  fun w =>
    match c w with
    | (Normal a, w') => k a w'
    | (Throw e, w') => (Throw e, w')
    end.

Definition try_catch {A} (c : M A) (handler : Error -> M A) : M A :=
  fun w =>
    match c w with
    | (Normal a, w') => (Normal a, w')
    | (Throw e, w') => handler e w'
    end.

Declare Scope js_scope.
Delimit Scope js_scope with js.
Notation "x <- c ;; k" := (bind c (fun x => k))
  (at level 100, c at next level, right associativity) : js_scope.
Notation "c ;;; k" := (bind c (fun _ => k))
  (at level 100, right associativity) : js_scope.
Local Open Scope js_scope.

(** *** World primitives *)

Definition modify (f : World -> World) : M unit := fun w => (Normal tt, f w).

Definition getItem (key : string) : M (option string) :=
  fun w => (Normal (localStorage w !! key), w).

Definition setItem (key value : string) : M unit :=
  modify (with_localStorage (fun m => <[key := value]> m)).

(** What an entry takes of the quota: the length of its text. *)
Definition entry_size (entry : option string) : N :=
  match entry with
  | Some value => N.of_nat (String.length value)
  | None => 0
  end.

(** The store has room for [value] under [key]: the text is no longer than
    the text it replaces plus the room that is free. *)
Definition store_accepts (w : World) (key value : string) : bool :=
  (N.of_nat (String.length value)
   <=? entry_size (localStorage w !! key) + free w)%N.

(** The world once [value] is stored under [key] and charged. *)
Definition stored (key value : string) (w : World) : World :=
  with_free
    (fun room =>
       entry_size (localStorage w !! key) + room
       - N.of_nat (String.length value))%N
    (with_localStorage (fun m => <[key := value]> m) w).

(** [localStorage.setItem] on an entry that is charged against the quota:
    it throws, and stores nothing, when there is no room. *)
Definition setItem_charged (key value : string) : M unit :=
  fun w =>
    if store_accepts w key value then (Normal tt, stored key value w)
    else (Throw (new_Error "QuotaExceededError"), w).

(** [localStorage.removeItem] on such an entry: its room is free again. *)
Definition removeItem_charged (key : string) : M unit :=
  fun w =>
    (Normal tt,
     with_free (fun room => entry_size (localStorage w !! key) + room)%N
       (with_localStorage (fun m => delete key m) w)).

(** [console.error] / [console.warn]: the label is recorded. *)
Definition console_error (label : string) : M unit :=
  modify (with_console (fun l => l ++ [label])).

Definition alert (msg : string) : M unit :=
  modify (with_alerts (fun l => l ++ [msg])).

Definition emit (ev : Event) : M unit :=
  modify (with_trace (fun l => l ++ [ev])).

Section Collaborators.

Variable env : Env.

(** [await ai.models.generateContent(req)]: the call is recorded, then the
    promise settles as the service decides. *)
Definition generateContent (req : Request) : M GenerateContentResponse :=
  fun w =>
    let w' := with_requests (fun l => l ++ [req]) w in
    match remote env (List.length (requests w)) req with
    | Resolved r => (Normal r, w')
    | Rejected e => (Throw e, w')
    end.

(** [Date.now()] *)
Definition now : M N :=
  fun w => (Normal (Date_now env (clock_reads w)), with_clock_reads S w).

(** [fileToBase64]: never rejects; [None] stands for [null]/[undefined]. *)
Definition fileToBase64 (file : File) : option string :=
  match readAsDataURL env file with
  | Some result => split_comma_1 result
  | None => None
  end.

End Collaborators.

(** Needles and messages shared by both revisions of the service. *)
Definition needle_code_429 : string := dquote ++ "code" ++ dquote ++ ":429".

Definition msg_no_key : string :=
  "Chưa cấu hình Gemini API key. Vui lòng thiết lập trong cài đặt.".
Definition msg_encode : string := "Không thể mã hóa ảnh sang base64.".
Definition msg_policy : string :=
  "Không thể tạo ảnh. Yêu cầu của bạn có thể đã vi phạm chính sách an toàn.".
Definition msg_credential : string :=
  "API Key không hợp lệ hoặc không có quyền cần thiết. Vui lòng kiểm tra lại key trong cài đặt.".
Definition msg_unknown : string := "Đã xảy ra lỗi không xác định.".

Definition LF : string := String "010"%char EmptyString.

Definition msg_quota : string :=
  "Lỗi Hạn mức (Quota Exceeded):" ++ LF ++
  "API Key của bạn đã hết hạn mức sử dụng miễn phí. " ++ LF ++
  "Vui lòng bật tính năng thanh toán (billing) cho dự án Google Cloud của bạn để tiếp tục." ++ LF ++ LF ++
  "Truy cập: ai.google.dev/gemini-api/docs/billing để biết thêm chi tiết.".

(** [error.message && (error.message.includes(a) || error.message.includes(b))] *)
Definition message_mentions (error : Error) (a b : string) : bool :=
  match message error with
  | Some m => truthy m && (includes m a || includes m b)
  | None => false
  end.

Definition dataUrl (b : Blob) : string :=
  "data:" ++ tmpl (mimeType b) ++ ";base64," ++ tmpl (data b).

(** The [for (const part of ...parts)] loop with its early [return]. *)
Fixpoint scanParts (ps : list Part) : option string :=
  match ps with
  | [] => None
  | part :: rest =>
      match inlineData part with
      | Some b => Some (dataUrl b)
      | None => scanParts rest
      end
  end.

(** Lines 131-146 of the quota-aware revision, 107-122 of the one under
    [src/services]: the same text in both.  A response without a usable
    first candidate is logged and rejected; otherwise the parts are scanned. *)
Definition policyBlocked : M (option string) :=
  console_error "Image generation failed or was blocked. Feedback:" ;;;
  throw (new_Error msg_policy).

Definition readResponse (response : GenerateContentResponse) : M (option string) :=
  match candidates response with
  | None => policyBlocked
  | Some [] => policyBlocked
  | Some (first :: _) =>
      match content first with
      | None => policyBlocked
      | Some c =>
          match parts c with
          | None => policyBlocked
          | Some ps => ret (scanParts ps)
          end
      end
  end.

(* ===================================================================== *)
(** ** services/geminiService.ts, the quota-aware revision *)
(* ===================================================================== *)

Module GeminiService.
Section WithEnv.

Variable env : Env.

Definition getApiKey : M (option string) := getItem "geminiApiKey".

Definition saveApiKey (apiKey : string) : M unit :=
setItem "geminiApiKey" apiKey.

Definition getModel : M string :=
stored <- getItem "geminiModel" ;;
ret (match stored with
     | Some m => if truthy m then m else "gemini-2.5-flash-image"
     | None => "gemini-2.5-flash-image"
     end).

Definition saveModel (model : string) : M unit :=
setItem "geminiModel" model.

Definition validateApiKey (apiKey : string) : M bool :=
if negb (truthy apiKey) then ret false
else
  try_catch
    (generateContent env (TextRequest apiKey "gemini-2.5-flash" "test") ;;;
     ret true)
    (fun error =>
       console_error "API Key validation failed:" ;;;
       if message_mentions error "RESOURCE_EXHAUSTED" needle_code_429
       then ret true
       else ret false).

Definition editImageWithPrompt (file : FileWithPreview) (prompt model : string)
: M (option string) :=
apiKey <- getApiKey ;;
match apiKey with
| None => throw (new_Error msg_no_key)
| Some key =>
    if negb (truthy key) then throw (new_Error msg_no_key)
    else
      match fileToBase64 env file with
      | None => throw (new_Error msg_encode)
      | Some base64Image =>
          if negb (truthy base64Image) then throw (new_Error msg_encode)
          else
            try_catch
              (response <- generateContent env
                 (ImageEditRequest key model base64Image (Types.type file) prompt) ;;
               readResponse response)
              (fun error =>
                 console_error "Lỗi khi chỉnh sửa ảnh với Gemini API:" ;;;
                 if message_mentions error "RESOURCE_EXHAUSTED" needle_code_429
                 then throw (new_Error msg_quota)
                 else if message_mentions error "API_KEY_INVALID" "permission"
                 then throw (new_Error msg_credential)
                 else
                   throw (new_Error
                            (match message error with
                             | Some m => if truthy m then m else msg_unknown
                             | None => msg_unknown
                             end)))
      end
end.

End WithEnv.
End GeminiService.

(* ===================================================================== *)
(** ** src/services/geminiService.ts, the revision [src/App.tsx] imports *)
(* ===================================================================== *)

Module SrcGeminiService.
Section WithEnv.

Variable env : Env.

Definition getApiKey : M (option string) := getItem "geminiApiKey".

Definition saveApiKey (apiKey : string) : M unit :=
setItem "geminiApiKey" apiKey.

Definition validateApiKey (apiKey : string) : M bool :=
if negb (truthy apiKey) then ret false
else
  try_catch
    (generateContent env (TextRequest apiKey "gemini-2.5-flash" "test") ;;;
     ret true)
    (fun error =>
       console_error "API Key validation failed:" ;;;
       ret false).

Definition editImageWithPrompt (file : FileWithPreview) (prompt : string)
: M (option string) :=
apiKey <- getApiKey ;;
match apiKey with
| None => throw (new_Error msg_no_key)
| Some key =>
    if negb (truthy key) then throw (new_Error msg_no_key)
    else
      match fileToBase64 env file with
      | None => throw (new_Error msg_encode)
      | Some base64Image =>
          if negb (truthy base64Image) then throw (new_Error msg_encode)
          else
            try_catch
              (response <- generateContent env
                 (ImageEditRequest key "gemini-2.5-flash-image"
                    base64Image (Types.type file) prompt) ;;
               readResponse response)
              (fun error =>
                 console_error "Lỗi khi chỉnh sửa ảnh với Gemini API:" ;;;
                 if message_mentions error "API_KEY_INVALID" "permission"
                 then throw (new_Error msg_credential)
                 else throw error)
      end
end.

End WithEnv.
End SrcGeminiService.

(* ===================================================================== *)
(** ** [JSON.stringify] on a [GeneratedImage[]] *)
(* ===================================================================== *)

Module JSON.

Definition backslash : string := String "092"%char EmptyString.

Definition hex_digit (n : N) : ascii :=
  match String.get (N.to_nat n) "0123456789abcdef" with
  | Some c => c
  | None => "0"%char
  end.

(** QuoteJSONString, one code unit at a time; bytes of a multi-byte
    character are copied. *)
Definition escape_char (c : ascii) : string :=
  let n := N_of_ascii c in
  if (n =? 34)%N then backslash ++ dquote
  else if (n =? 92)%N then backslash ++ backslash
  else if (n =? 8)%N then backslash ++ "b"
  else if (n =? 12)%N then backslash ++ "f"
  else if (n =? 10)%N then backslash ++ "n"
  else if (n =? 13)%N then backslash ++ "r"
  else if (n =? 9)%N then backslash ++ "t"
  else if (n <? 32)%N then
    backslash ++ "u00" ++
    String (hex_digit (n / 16)) (String (hex_digit (n mod 16)) EmptyString)
  else String c EmptyString.

Fixpoint escape (s : string) : string :=
  match s with
  | EmptyString => EmptyString
  | String c rest => escape_char c ++ escape rest
  end.

Definition quote (s : string) : string := dquote ++ escape s ++ dquote.

Definition member (key value : string) : string :=
  quote key ++ ":" ++ quote value.

Definition stringify_image (img : GeneratedImage) : string :=
  "{" ++ member "id" (Types.id img) ++
  "," ++ member "url" (Types.url img) ++
  "," ++ member "prompt" (Types.prompt img) ++
  "," ++ member "originalFileName" (Types.originalFileName img) ++ "}".

Fixpoint join (sep : string) (l : list string) : string :=
  match l with
  | [] => EmptyString
  | [x] => x
  | x :: rest => x ++ sep ++ join sep rest
  end.

Definition stringify (images : list GeneratedImage) : string :=
  "[" ++ join "," (List.map stringify_image images) ++ "]".

End JSON.

(* ===================================================================== *)
(** ** src/App.tsx *)
(* ===================================================================== *)

Module App.

(** The [useState] cells the modelled handlers read or write.
    [generatedImages_ref] stands for the identity of the array held by
    [generatedImages]: React compares effect dependencies by reference, and
    every [setGeneratedImages] below stores a fresh array. *)
Record State := {
  uploadedFiles : list FileWithPreview;
  prompt : string;
  generatedImages : list GeneratedImage;
  generatedImages_ref : nat;
  isLoading : bool;
  error : option string;
  selectedImage : option GeneratedImage;
  directoryHandle : option string;
  isPickerSupported : bool;
  hasApiKey : bool;
  isSettingsOpen : bool;
  apiKeyInput : string
}.

Definition initialState : State :=
  {| uploadedFiles := []; prompt := EmptyString; generatedImages := [];
     generatedImages_ref := 0; isLoading := false; error := None;
     selectedImage := None; directoryHandle := None;
     isPickerSupported := false; hasApiKey := false;
     isSettingsOpen := false; apiKeyInput := EmptyString |}.

Definition setUploadedFiles (f : list FileWithPreview -> list FileWithPreview)
  (s : State) : State :=
  {| uploadedFiles := f (uploadedFiles s); prompt := prompt s;
     generatedImages := generatedImages s;
     generatedImages_ref := generatedImages_ref s;
     isLoading := isLoading s; error := error s;
     selectedImage := selectedImage s; directoryHandle := directoryHandle s;
     isPickerSupported := isPickerSupported s; hasApiKey := hasApiKey s;
     isSettingsOpen := isSettingsOpen s; apiKeyInput := apiKeyInput s |}.

Definition setGeneratedImages
  (f : list GeneratedImage -> list GeneratedImage) (s : State) : State :=
  {| uploadedFiles := uploadedFiles s; prompt := prompt s;
     generatedImages := f (generatedImages s);
     generatedImages_ref := S (generatedImages_ref s);
     isLoading := isLoading s; error := error s;
     selectedImage := selectedImage s; directoryHandle := directoryHandle s;
     isPickerSupported := isPickerSupported s; hasApiKey := hasApiKey s;
     isSettingsOpen := isSettingsOpen s; apiKeyInput := apiKeyInput s |}.

Definition setIsLoading (b : bool) (s : State) : State :=
  {| uploadedFiles := uploadedFiles s; prompt := prompt s;
     generatedImages := generatedImages s;
     generatedImages_ref := generatedImages_ref s;
     isLoading := b; error := error s;
     selectedImage := selectedImage s; directoryHandle := directoryHandle s;
     isPickerSupported := isPickerSupported s; hasApiKey := hasApiKey s;
     isSettingsOpen := isSettingsOpen s; apiKeyInput := apiKeyInput s |}.

Definition setError (f : option string -> option string) (s : State) : State :=
  {| uploadedFiles := uploadedFiles s; prompt := prompt s;
     generatedImages := generatedImages s;
     generatedImages_ref := generatedImages_ref s;
     isLoading := isLoading s; error := f (error s);
     selectedImage := selectedImage s; directoryHandle := directoryHandle s;
     isPickerSupported := isPickerSupported s; hasApiKey := hasApiKey s;
     isSettingsOpen := isSettingsOpen s; apiKeyInput := apiKeyInput s |}.

Definition setSelectedImage (o : option GeneratedImage) (s : State) : State :=
  {| uploadedFiles := uploadedFiles s; prompt := prompt s;
     generatedImages := generatedImages s;
     generatedImages_ref := generatedImages_ref s;
     isLoading := isLoading s; error := error s;
     selectedImage := o; directoryHandle := directoryHandle s;
     isPickerSupported := isPickerSupported s; hasApiKey := hasApiKey s;
     isSettingsOpen := isSettingsOpen s; apiKeyInput := apiKeyInput s |}.

Definition setIsPickerSupported (b : bool) (s : State) : State :=
  {| uploadedFiles := uploadedFiles s; prompt := prompt s;
     generatedImages := generatedImages s;
     generatedImages_ref := generatedImages_ref s;
     isLoading := isLoading s; error := error s;
     selectedImage := selectedImage s; directoryHandle := directoryHandle s;
     isPickerSupported := b; hasApiKey := hasApiKey s;
     isSettingsOpen := isSettingsOpen s; apiKeyInput := apiKeyInput s |}.

Definition setHasApiKey (b : bool) (s : State) : State :=
  {| uploadedFiles := uploadedFiles s; prompt := prompt s;
     generatedImages := generatedImages s;
     generatedImages_ref := generatedImages_ref s;
     isLoading := isLoading s; error := error s;
     selectedImage := selectedImage s; directoryHandle := directoryHandle s;
     isPickerSupported := isPickerSupported s; hasApiKey := b;
     isSettingsOpen := isSettingsOpen s; apiKeyInput := apiKeyInput s |}.

Definition setIsSettingsOpen (b : bool) (s : State) : State :=
  {| uploadedFiles := uploadedFiles s; prompt := prompt s;
     generatedImages := generatedImages s;
     generatedImages_ref := generatedImages_ref s;
     isLoading := isLoading s; error := error s;
     selectedImage := selectedImage s; directoryHandle := directoryHandle s;
     isPickerSupported := isPickerSupported s; hasApiKey := hasApiKey s;
     isSettingsOpen := b; apiKeyInput := apiKeyInput s |}.

Definition setApiKeyInput (k : string) (s : State) : State :=
  {| uploadedFiles := uploadedFiles s; prompt := prompt s;
     generatedImages := generatedImages s;
     generatedImages_ref := generatedImages_ref s;
     isLoading := isLoading s; error := error s;
     selectedImage := selectedImage s; directoryHandle := directoryHandle s;
     isPickerSupported := isPickerSupported s; hasApiKey := hasApiKey s;
     isSettingsOpen := isSettingsOpen s; apiKeyInput := k |}.

(** [prompt.trim()] is the empty string: every character of the prompt is
    an ECMAScript WhiteSpace or LineTerminator.  On UTF-8 bytes these are
    09-0D and 20, U+00A0 (C2 A0), U+1680 (E1 9A 80), U+2000-U+200A,
    U+2028, U+2029, U+202F (E2 80 ..), U+205F (E2 81 9F), U+3000
    (E3 80 80) and U+FEFF (EF BB BF). *)
Definition ws1 (a : N) : bool :=
  ((9 <=? a) && (a <=? 13) || (a =? 32))%N.

Definition ws2 (a b : N) : bool := ((a =? 194) && (b =? 160))%N.

Definition ws3 (a b c : N) : bool :=
  ((a =? 225) && (b =? 154) && (c =? 128)
   || (a =? 226) && (b =? 128)
      && ((128 <=? c) && (c <=? 138) || (c =? 168) || (c =? 169) || (c =? 175))
   || (a =? 226) && (b =? 129) && (c =? 159)
   || (a =? 227) && (b =? 128) && (c =? 128)
   || (a =? 239) && (b =? 187) && (c =? 191))%N.

Fixpoint trim_is_empty (s : string) : bool :=
  match s with
  | EmptyString => true
  | String c1 r1 =>
      if ws1 (N_of_ascii c1) then trim_is_empty r1
      else
        match r1 with
        | EmptyString => false
        | String c2 r2 =>
            if ws2 (N_of_ascii c1) (N_of_ascii c2) then trim_is_empty r2
            else
              match r2 with
              | EmptyString => false
              | String c3 r3 =>
                  if ws3 (N_of_ascii c1) (N_of_ascii c2) (N_of_ascii c3)
                  then trim_is_empty r3
                  else false
              end
        end
  end.

Definition msg_need_key : string :=
  "Vui lòng thiết lập Gemini API Key trong phần cài đặt trước khi tạo ảnh.".
Definition msg_need_file : string :=
  "Vui lòng tải lên ít nhất một ảnh để chỉnh sửa.".
Definition msg_need_prompt : string :=
  "Vui lòng nhập lời nhắc chỉnh sửa ảnh.".

(** [`Không thể tạo ảnh chỉnh sửa cho ${file.name}.`] *)
Definition msg_no_image (f : FileWithPreview) : string :=
  "Không thể tạo ảnh chỉnh sửa cho " ++ Types.name f ++ ".".

(** [`Lỗi khi xử lý ảnh ${file.name}: ${e.message}`] *)
Definition msg_failed (f : FileWithPreview) (e : Error) : string :=
  "Lỗi khi xử lý ảnh " ++ Types.name f ++ ": " ++ tmpl (message e).

(** [setError((prev) => `${prev ? prev + '\n' : ''}${msg}`)] *)
Definition appendError (msg : string) (prev : option string) : option string :=
  Some ((match prev with
         | Some p => if truthy p then p +:+ LF else EmptyString
         | None => EmptyString
         end) +:+ msg).

(** Line 118: the updater of [removeFile]. *)
Definition removeFile (fileName : string) (s : State) : State :=
  setUploadedFiles
    (List.filter
       (fun f : FileWithPreview => negb (String.eqb (Types.name f) fileName)))
    s.

Section Handlers.

Variable env : Env.

(** Lines 46-61: picker detection and the stored key. *)
Definition keyEffect (s : State) : M State :=
  (if pickerSupported env then ret tt
   else console_error
          "File System Access API (showDirectoryPicker) is not supported in this environment (e.g., a cross-origin iframe). The automatic save feature will be disabled.") ;;;
  storedKey <- SrcGeminiService.getApiKey ;;
  let s1 := setIsPickerSupported (pickerSupported env) s in
  ret (match storedKey with
       | Some k =>
           if truthy k then setApiKeyInput k (setHasApiKey true s1)
           else setIsSettingsOpen true s1
       | None => setIsSettingsOpen true s1
       end).

(** Lines 63-74: the gallery is rehydrated from storage. *)
Definition hydrateEffect (s : State) : M State :=
  storedImages <- getItem "generatedImages" ;;
  match storedImages with
  | Some raw =>
      if truthy raw then
        match JSON_parse env raw with
        | Some parsedImages =>
            ret (setGeneratedImages (fun _ => parsedImages) s)
        | None =>
            console_error "Failed to parse stored images from localStorage:" ;;;
            removeItem_charged "generatedImages" ;;;
            ret s
        end
      else ret s
  | None => ret s
  end.

(** Lines 76-84: the gallery is written back.  [||] short-circuits, so
    storage is read only when the gallery is empty.  A write the store
    refuses is caught and logged; the entry is then what it was. *)
Definition persistEffect (images : list GeneratedImage) : M unit :=
  try_catch
    (go <- (if (0 <? List.length images)%nat then ret true
            else stored <- getItem "generatedImages" ;;
                 ret (truthy_opt stored)) ;;
     if (go : bool)
     then setItem_charged "generatedImages" (JSON.stringify images)
     else ret tt)
    (fun _ => console_error "Failed to save images to localStorage:").

(** After a render, the effect that depends on [generatedImages] runs
    when the array it sees is not the one of the previous render. *)
Definition commit (before after : State) : M unit :=
  if (generatedImages_ref before =? generatedImages_ref after)%nat
  then ret tt
  else persistEffect (generatedImages after).

(** The first render: the three mount effects run in source order on the
    initial state, then the queued updates are rendered. *)
Definition mount : M State :=
  s1 <- keyEffect initialState ;;
  s2 <- hydrateEffect s1 ;;
  persistEffect (generatedImages initialState) ;;;
  commit initialState s2 ;;;
  ret s2.

(** Lines 121-142.  The permission calls are taken not to reject; the
    creation of the file and the write are one fallible step. *)
Definition saveImageToFileSystem (handle : option string)
  (imageDataUrl fileName : string) : M unit :=
  match handle with
  | None => ret tt
  | Some _ =>
      let permissionStatus :=
        match queryPermission env with
        | granted => granted
        | _ => requestPermission env
        end in
      match permissionStatus with
      | granted =>
          match writeFile env fileName imageDataUrl with
          | None =>
              modify (with_saved (fun l => l ++ [(fileName, imageDataUrl)]))
          | Some err =>
              console_error "Error saving image to file system:" ;;;
              alert ("Không thể lưu ảnh " +:+ dquote +:+ fileName +:+ dquote
                     +:+ " tự động. Lỗi: " +:+ tmpl (message err))
          end
      | _ =>
          alert "Không thể lưu ảnh tự động: Quyền ghi vào thư mục bị từ chối."
      end
  end.

(** The edit client [handleGenerate] awaits. *)
Variable edit : FileWithPreview -> string -> M (option string).

(** Lines 164-189: the body of the [for ... of] loop.  [run] is
    [newGeneratedImagesThisRun]; nothing after its [push] can throw. *)
Definition processFile (prompt0 : string) (handle : option string)
  (file : FileWithPreview) (acc : State * list GeneratedImage)
  : M (State * list GeneratedImage) :=
  let '(s, run) := acc in
  emit (EditStarted file) ;;;
  try_catch
    (editedImageUrl <-
       (fun w =>
          let '(c, w') := edit file prompt0 w in
          (c, with_trace (fun l => l ++ [EditSettled file c]) w')) ;;
     match editedImageUrl with
     | Some u =>
         if truthy u then
           t <- now env ;;
           let newImage :=
             {| Types.id := Types.name file +:+ "-" +:+ pretty t;
                Types.url := u;
                Types.prompt := prompt0;
                Types.originalFileName := Types.name file |} in
           match handle with
           | Some _ =>
               t' <- now env ;;
               saveImageToFileSystem handle u
                 ("gemini-generated-" +:+ pretty t' +:+ ".png")
           | None => ret tt
           end ;;;
           ret (s, run ++ [newImage])
         else ret (setError (appendError (msg_no_image file)) s, run)
     | None => ret (setError (appendError (msg_no_image file)) s, run)
     end)
    (fun e =>
       console_error ("Error processing " +:+ Types.name file +:+ ":") ;;;
       let s1 := setError (appendError (msg_failed file e)) s in
       if message_mentions e "API Key" "API key"
       then ret (setIsSettingsOpen true (setHasApiKey false s1), run)
       else ret (s1, run)).

Fixpoint forFiles (prompt0 : string) (handle : option string)
  (files : list FileWithPreview) (acc : State * list GeneratedImage)
  : M (State * list GeneratedImage) :=
  match files with
  | [] => ret acc
  | file :: rest =>
      acc' <- processFile prompt0 handle file acc ;;
      forFiles prompt0 handle rest acc'
  end.

(** Lines 144-193. *)
Definition handleGenerate (s : State) : M State :=
  if negb (hasApiKey s) then
    ret (setIsSettingsOpen true (setError (fun _ => Some msg_need_key) s))
  else if (List.length (uploadedFiles s) =? 0)%nat then
    ret (setError (fun _ => Some msg_need_file) s)
  else if trim_is_empty (prompt s) then
    ret (setError (fun _ => Some msg_need_prompt) s)
  else
    let s1 := setError (fun _ => None) (setIsLoading true s) in
    acc <- forFiles (prompt s) (directoryHandle s) (uploadedFiles s) (s1, []) ;;
    let '(s2, run) := acc in
    ret (setIsLoading false
           (setGeneratedImages (fun prev => run ++ prev) s2)).

(** Lines 220-226. *)
Definition handleDeleteImage (s : State) : M State :=
  match selectedImage s with
  | Some sel =>
      if truthy (Types.id sel) then
        alert "Ảnh đã được xóa!" ;;;
        ret (setSelectedImage None
               (setGeneratedImages
                  (List.filter
                     (fun img : GeneratedImage =>
                        negb (String.eqb (Types.id img) (Types.id sel))))
                  s))
      else ret s
  | None => ret s
  end.

(** A handler followed by the render it causes. *)
Definition dispatch (handler : State -> M State) (s : State) : M State :=
  s' <- handler s ;;
  commit s s' ;;;
  ret s'.

(** *** The remaining handlers of [src/App.tsx] *)

(** Lines 108-111: the body of the upload loop; one [push] or none. *)
Definition withPreview (file : File) : option FileWithPreview :=
  match fileToBase64 env file with
  | Some base64 =>
      if truthy base64 then
        Some {| Types.file := file;
                Types.preview :=
                  "data:" +:+ Types.type file +:+ ";base64," +:+ base64 |}
      else None
  | None => None
  end.

(** Lines 105-112: [acc] is [newFilesWithPreviews]. *)
Fixpoint readPreviews (files : list File) (acc : list FileWithPreview)
  : list FileWithPreview :=
  match files with
  | [] => acc
  | file :: rest =>
      readPreviews rest
        match withPreview file with
        | Some entry => acc ++ [entry]
        | None => acc
        end
  end.

(** Lines 101-115.  [files] is [event.target.files], a [FileList] or
    [null]. *)
Definition handleFileChange (files : option (list File)) (s : State) : M State :=
  let s1 := setError (fun _ => None) s in
  match files with
  | Some (file :: rest) =>
      ret (setUploadedFiles
             (fun prev => prev ++ readPreviews (file :: rest) []) s1)
  | _ => ret s1
  end.

(** Lines 87-92: the [keydown] listener, which each render re-binds to the
    current [selectedImage] and [isSettingsOpen]. *)
Definition handleKeyDown (key : string) (s : State) : State :=
  if String.eqb key "Escape" then
    match selectedImage s with
    | Some _ => setSelectedImage None s
    | None => if isSettingsOpen s then setIsSettingsOpen false s else s
    end
  else s.

(** [s.split('.')[0]] *)
Fixpoint upto_dot (s : string) : string :=
  match s with
  | EmptyString => EmptyString
  | String c rest =>
      if Ascii.eqb c "."%char then EmptyString else String c (upto_dot rest)
  end.

(** The UTF-16 code units of a text given by its UTF-8 bytes: an ASCII
    byte is its own unit, a two- or three-byte character is one non-ASCII
    unit, a four-byte character is a surrogate pair. *)
Fixpoint code_units (s : string) : list (option ascii) :=
  match s with
  | EmptyString => []
  | String c rest =>
      let n := N_of_ascii c in
      if (n <? 128)%N then Some c :: code_units rest
      else if (n <? 192)%N then code_units rest
      else if (n <? 240)%N then None :: code_units rest
      else None :: None :: code_units rest
  end.

Definition is_alnum (c : ascii) : bool :=
  let n := N_of_ascii c in
  ((48 <=? n) && (n <=? 57) || (65 <=? n) && (n <=? 90)
   || (97 <=? n) && (n <=? 122))%N.

Definition toLowerCase_ascii (c : ascii) : ascii :=
  let n := N_of_ascii c in
  if ((65 <=? n) && (n <=? 90))%N then ascii_of_N (n + 32) else c.

(** One code unit through [.replace(/[^a-z0-9]/gi, '_').toLowerCase()]. *)
Definition safe_unit (u : option ascii) : ascii :=
  match u with
  | Some c => if is_alnum c then toLowerCase_ascii c else "_"%char
  | None => "_"%char
  end.

(** Line 232: [prompt.substring(0, 20).replace(/[^a-z0-9]/gi, '_').toLowerCase()] *)
Definition safePrompt (p : string) : string :=
  string_of_list_ascii (List.map safe_unit (firstn 20 (code_units p))).

(** Lines 228-237: the [href] and [download] of the link that is clicked,
    if any. *)
Definition handleDownloadImage (s : State) : option (string * string) :=
  match selectedImage s with
  | None => None
  | Some img =>
      Some (Types.url img,
            "gemini_" +:+ upto_dot (Types.originalFileName img) +:+ "_"
            +:+ safePrompt (Types.prompt img) +:+ ".png")
  end.

(** The two [useState] cells of the settings panel that [State] leaves out. *)
Record KeyForm := { isKeyValidating : bool; apiKeyError : option string }.

Definition msg_key_saved : string := "API Key đã được lưu thành công!".
Definition msg_key_invalid : string :=
  "API Key không hợp lệ. Vui lòng kiểm tra lại và thử lại. Bạn có thể lấy key từ Google AI Studio.".

(** Lines 251-264, over the validator the module is linked with. *)
Definition handleSaveApiKey (validate : string -> M bool)
  (sf : State * KeyForm) : M (State * KeyForm) :=
  let s := fst sf in
  isValid <- validate (apiKeyInput s) ;;
  if (isValid : bool) then
    SrcGeminiService.saveApiKey (apiKeyInput s) ;;;
    alert msg_key_saved ;;;
    ret (setIsSettingsOpen false (setHasApiKey true s),
         {| isKeyValidating := false; apiKeyError := None |})
  else
    ret (s, {| isKeyValidating := false; apiKeyError := Some msg_key_invalid |}).

(** Line 313: the [disabled] attribute of the generate button. *)
Definition generateDisabled (s : State) : bool :=
  isLoading s || (List.length (uploadedFiles s) =? 0)%nat
  || trim_is_empty (prompt s) || negb (hasApiKey s).

(** Line 375: the [disabled] attribute of the save button of the panel. *)
Definition saveKeyDisabled (s : State) (form : KeyForm) : bool :=
  isKeyValidating form || trim_is_empty (apiKeyInput s).

End Handlers.

End App.

(* ===================================================================== *)
(** ** The edit clients [handleGenerate] can be linked with *)
(* ===================================================================== *)

(** [src/App.tsx] imports [./services/geminiService] and calls
    [editImageWithPrompt(file, prompt)]: [SrcRevision] is the client the
    program is linked with.  [QuotaAware] is the revision of
    [src/unnamed/part_000], which takes the model as a third argument; the
    statements about the handler that quantify over the client hold with
    either service behind it. *)
Inductive Client :=
| QuotaAware (model : string)
| SrcRevision.

Definition client_model (client : Client) : string :=
  match client with
  | QuotaAware model => model
  | SrcRevision => "gemini-2.5-flash-image"
  end.

Definition editOf (env : Env) (client : Client)
  : FileWithPreview -> string -> M (option string) :=
  match client with
  | QuotaAware model =>
      fun file prompt => GeminiService.editImageWithPrompt env file prompt model
  | SrcRevision => SrcGeminiService.editImageWithPrompt env
  end.

(** The validator [handleSaveApiKey] is linked with, by revision. *)
Definition validateOf (env : Env) (client : Client) : string -> M bool :=
  match client with
  | QuotaAware _ => GeminiService.validateApiKey env
  | SrcRevision => SrcGeminiService.validateApiKey env
  end.

(* ===================================================================== *)
(** ** Vocabulary of the statements *)
(* ===================================================================== *)

(** A response without candidates, with an empty candidate list, or whose
    first candidate has no content or no parts. *)
Definition no_usable_candidate (r : GenerateContentResponse) : Prop :=
  candidates r = None \/
  candidates r = Some [] \/
  exists first others,
    candidates r = Some (first :: others) /\
    (content first = None \/
     exists c, content first = Some c /\ parts c = None).

(** The predicate of the two [filter] calls of [src/App.tsx]:
    [x => key(x) !== k]. *)
Definition other_key {A : Type} (key : A -> string) (k : string) (x : A) : bool :=
  negb (String.eqb (key x) k).

(** [msgs.join(sep)] *)
Definition join : string -> list string -> string := JSON.join.

(** What one settled edit call contributes to the error text, if anything. *)
Definition failure_message (o : FileWithPreview * Completion (option string))
  : option string :=
  match o with
  | (f, Normal (Some u)) => if truthy u then None else Some (App.msg_no_image f)
  | (f, Normal None) => Some (App.msg_no_image f)
  | (f, Throw e) => Some (App.msg_failed f e)
  end.

(** The image URL of a settled edit call that succeeded. *)
Definition success_url (o : FileWithPreview * Completion (option string))
  : option (FileWithPreview * string) :=
  match o with
  | (f, Normal (Some u)) => if truthy u then Some (f, u) else None
  | _ => None
  end.

(** The record [handleGenerate] builds for file [f], URL [u] at time [t]. *)
Definition record_of (prompt0 : string) (f : FileWithPreview) (u : string)
  (t : N) : GeneratedImage :=
  {| Types.id := Types.name f +:+ "-" +:+ pretty t;
     Types.url := u;
     Types.prompt := prompt0;
     Types.originalFileName := Types.name f |}.

(** The ghost events of a run that awaited the given calls one by one. *)
Definition events_of (outcomes : list (FileWithPreview * Completion (option string)))
  : list Event :=
  List.concat
    (List.map (fun o => [EditStarted (fst o); EditSettled (fst o) (snd o)])
       outcomes).

(** A settled edit call whose error text makes [handleGenerate] treat it as
    a credential problem: [e.message] mentions [API Key] or [API key]. *)
Definition mentions_key (o : FileWithPreview * Completion (option string))
  : bool :=
  match snd o with
  | Throw e => message_mentions e "API Key" "API key"
  | Normal _ => false
  end.

(** The record [r] was built by [handleGenerate] for the pair (file, URL). *)
Definition built_from (prompt0 : string) (r : GeneratedImage)
  (fu : FileWithPreview * string) : Prop :=
  exists t, r = record_of prompt0 (fst fu) (snd fu) t.

(** Number of lines of a text: one more than its line feeds. *)
Fixpoint count_lines (s : string) : nat :=
  match s with
  | EmptyString => 1
  | String c rest =>
      if Ascii.eqb c "010"%char then S (count_lines rest) else count_lines rest
  end.

(** The storage entry agrees with the gallery: it holds its serialization,
    or the gallery is empty and there is no non-empty entry (which
    [hydrateEffect] reads as the empty gallery). *)
Definition storage_reflects (m : gmap string string)
  (images : list GeneratedImage) : Prop :=
  m !! "generatedImages" = Some (JSON.stringify images) \/
  (images = [] /\ truthy_opt (m !! "generatedImages") = false).

(* ===================================================================== *)
(** ** Concrete inputs *)
(* ===================================================================== *)

Module Sample.

Definition response_with (ps : option (list Part)) : GenerateContentResponse :=
  {| candidates := Some [ {| content := Some {| parts := ps |} |} ] |}.

Definition image_part (mime payload : string) : Part :=
  {| inlineData := Some {| mimeType := Some mime; data := Some payload |};
     text := None |}.

Definition text_part (t : string) : Part :=
  {| inlineData := None; text := Some t |}.

(** A service that answers every request the same way. *)
Definition env_with (answer : Outcome) : Env :=
  {| remote := fun _ _ => answer;
     Date_now := fun n => (1700000000000 + N.of_nat n)%N;
     readAsDataURL := fun _ => Some "data:image/png;base64,AAAA";
     JSON_parse := fun _ => None;
     pickerSupported := false;
     queryPermission := granted;
     requestPermission := granted;
     writeFile := fun _ _ => None |}.

(** Collaborators whose [JSON.parse] reads the one text [raw] as the
    gallery [images] and rejects every other text. *)
Definition env_parsing (raw : string) (images : list GeneratedImage) : Env :=
  {| remote := fun _ _ => Rejected (mkError None);
     Date_now := fun n => (1700000000000 + N.of_nat n)%N;
     readAsDataURL := fun _ => None;
     JSON_parse := fun text => if String.eqb text raw then Some images else None;
     pickerSupported := true;
     queryPermission := granted;
     requestPermission := granted;
     writeFile := fun _ _ => None |}.

Definition env_rejecting (msg : string) : Env :=
  env_with (Rejected (mkError (Some msg))).

Definition env_image : Env :=
  env_with (Resolved (response_with
                        (Some [text_part "done"; image_part "image/png" "BBBB";
                               image_part "image/jpeg" "CCCC"]))).

Definition world_of (m : gmap string string) : World :=
  {| localStorage := m; free := 5000000; console := []; alerts := [];
     requests := []; clock_reads := 0; saved := []; trace := [] |}.

Definition world_with_key : World := world_of {[ "geminiApiKey" := "k" ]}.

Definition upload (n : string) : FileWithPreview :=
  {| Types.file := {| Types.name := n; Types.type := "image/png" |};
     Types.preview := "data:image/png;base64,AAAA" |}.

Definition a_png : FileWithPreview := upload "a.png".
Definition b_png : FileWithPreview := upload "b.png".

(** A session with a key, the given uploads and a prompt. *)
Definition ready (files : list FileWithPreview) : App.State :=
  {| App.uploadedFiles := files; App.prompt := "make it blue";
     App.generatedImages := []; App.generatedImages_ref := 0;
     App.isLoading := false; App.error := None;
     App.selectedImage := None; App.directoryHandle := None;
     App.isPickerSupported := false; App.hasApiKey := true;
     App.isSettingsOpen := false; App.apiKeyInput := "k" |}.

Definition image_from (i u : string) : GeneratedImage :=
  {| Types.id := i; Types.url := u;
     Types.prompt := "make it blue"; Types.originalFileName := "a.png" |}.

Definition image (i : string) : GeneratedImage :=
  image_from i "data:image/png;base64,BBBB".

(** A session showing [sel] in the detail view over the given gallery. *)
Definition viewing (gallery : list GeneratedImage) (sel : GeneratedImage)
  : App.State :=
  App.setSelectedImage (Some sel)
    (App.setGeneratedImages (fun _ => gallery) (ready [])).

End Sample.

(* ===================================================================== *)
(** ** Filtering a list by a string key *)
(* ===================================================================== *)

Section FilterByKey.

Context {A : Type} (key : A -> string) (k : string).

Lemma other_key_true x : other_key key k x = true <-> key x <> k.
Proof.
  unfold other_key. rewrite negb_true_iff. apply String.eqb_neq.
Qed.

Lemma filter_key_In l x :
  In x (List.filter (other_key key k) l) <-> In x l /\ key x <> k.
Proof.
  rewrite filter_In, other_key_true. reflexivity.
Qed.

Lemma filter_key_Forall l :
  Forall (fun x => key x <> k) (List.filter (other_key key k) l).
Proof.
  apply List.Forall_forall. intros x Hx.
  apply filter_key_In in Hx. tauto.
Qed.

Lemma filter_key_sublist l : List.filter (other_key key k) l `sublist_of` l.
Proof.
  induction l as [|x l IH]; simpl.
  - constructor.
  - destruct (other_key key k x); [apply sublist_skip | apply sublist_cons]; exact IH.
Qed.

(** Every order-respecting selection of entries with another key survives,
    multiplicities included. *)
Lemma filter_key_greatest l m :
  m `sublist_of` l -> Forall (fun x => key x <> k) m ->
  m `sublist_of` List.filter (other_key key k) l.
Proof.
  intros Hsub. induction Hsub as [|x m l Hsub IH|x m l Hsub IH]; intros Hall.
  - constructor.
  - inversion Hall as [|? ? Hx Hrest]; subst. simpl.
    apply other_key_true in Hx. rewrite Hx. apply sublist_skip, IH, Hrest.
  - simpl. destruct (other_key key k x); [apply sublist_cons|]; apply IH, Hall.
Qed.

Lemma filter_key_id l :
  Forall (fun x => key x <> k) l -> List.filter (other_key key k) l = l.
Proof.
  induction 1 as [|x l Hx _ IH]; simpl; [reflexivity|].
  apply other_key_true in Hx. rewrite Hx, IH. reflexivity.
Qed.

End FilterByKey.

(* ===================================================================== *)
(** ** [removeFile] *)
(* ===================================================================== *)

(** C9.  For every upload list and every file name, [removeFile] leaves no
    entry with that name (duplicates go together), the result is the old list
    with entries deleted and nothing reordered, and every order-respecting
    selection of entries with other names is still there. *)
Theorem removeFile_drops_every_entry_named (fileName : string) (s : App.State) :
  let files' := App.uploadedFiles (App.removeFile fileName s) in
  Forall (fun f : FileWithPreview => Types.name f <> fileName) files' /\
  files' `sublist_of` App.uploadedFiles s /\
  (forall kept : list FileWithPreview,
      kept `sublist_of` App.uploadedFiles s ->
      Forall (fun f : FileWithPreview => Types.name f <> fileName) kept ->
      kept `sublist_of` files').
Proof.
  simpl. split; [|split].
  - apply (filter_key_Forall (fun f : FileWithPreview => Types.name f)).
  - apply (filter_key_sublist (fun f : FileWithPreview => Types.name f)).
  - intros kept Hsub Hall.
    apply (filter_key_greatest (fun f : FileWithPreview => Types.name f));
      assumption.
Qed.

Lemma removeFile_drops_every_entry_named_witness :
  App.uploadedFiles
    (App.removeFile "a.png"
       (Sample.ready [Sample.a_png; Sample.b_png; Sample.a_png]))
  = [Sample.b_png] /\
  [Sample.b_png] `sublist_of`
    App.uploadedFiles
      (App.removeFile "a.png"
         (Sample.ready [Sample.a_png; Sample.b_png; Sample.a_png])).
Proof.
  split; [reflexivity|].
  apply (removeFile_drops_every_entry_named "a.png"
           (Sample.ready [Sample.a_png; Sample.b_png; Sample.a_png])).
  - simpl. apply sublist_cons, sublist_skip, sublist_cons, sublist_nil.
  - constructor; [|constructor]. simpl. discriminate.
Defined.

(* ===================================================================== *)
(** ** [validateApiKey] *)
(* ===================================================================== *)

(** The quota-aware revision: the empty key is refused without touching the
    world; any other key costs exactly one probe, and the verdict is [true]
    on success and on a failure whose message carries a quota marker. *)
Lemma quota_aware_validateApiKey_cases (env : Env) (apiKey : string) (w : World) :
  let probe := TextRequest apiKey "gemini-2.5-flash" "test" in
  (apiKey = EmptyString ->
   GeminiService.validateApiKey env apiKey w = (Normal false, w)) /\
  (apiKey <> EmptyString ->
   requests (snd (GeminiService.validateApiKey env apiKey w))
   = requests w ++ [probe] /\
   fst (GeminiService.validateApiKey env apiKey w)
   = Normal
       match remote env (List.length (requests w)) probe with
       | Resolved _ => true
       | Rejected e => message_mentions e "RESOURCE_EXHAUSTED" needle_code_429
       end).
Proof.
  intros probe. split.
  - intros ->. reflexivity.
  - intros Hne. destruct apiKey as [|c rest]; [congruence|].
    unfold GeminiService.validateApiKey, try_catch, bind, generateContent.
    cbn [truthy negb]. fold probe.
    destruct (remote env (List.length (requests w)) probe) as [r|e].
    + split; reflexivity.
    + cbn [console_error modify].
      destruct (message_mentions e "RESOURCE_EXHAUSTED" needle_code_429);
        split; reflexivity.
Qed.

(** The revision under [src/services]: every failure of the probe gives
    [false], whatever its message. *)
Lemma src_validateApiKey_cases (env : Env) (apiKey : string) (w : World) :
  let probe := TextRequest apiKey "gemini-2.5-flash" "test" in
  (apiKey = EmptyString ->
   SrcGeminiService.validateApiKey env apiKey w = (Normal false, w)) /\
  (apiKey <> EmptyString ->
   requests (snd (SrcGeminiService.validateApiKey env apiKey w))
   = requests w ++ [probe] /\
   fst (SrcGeminiService.validateApiKey env apiKey w)
   = Normal
       match remote env (List.length (requests w)) probe with
       | Resolved _ => true
       | Rejected _ => false
       end).
Proof.
  intros probe. split.
  - intros ->. reflexivity.
  - intros Hne. destruct apiKey as [|c rest]; [congruence|].
    unfold SrcGeminiService.validateApiKey, try_catch, bind, generateContent.
    cbn [truthy negb]. fold probe.
    destruct (remote env (List.length (requests w)) probe) as [r|e];
      split; reflexivity.
Qed.

(** C1.  A key whose probe fails with a quota error: the message carries the
    marker both revisions would look for, the quota-aware revision answers
    [true], the revision under [src/services] answers [false]. *)
Theorem validateApiKey_quota_error_src_revision_false :
  let env := Sample.env_rejecting "429 RESOURCE_EXHAUSTED: quota exceeded" in
  remote env 0 (TextRequest "k" "gemini-2.5-flash" "test")
  = Rejected (mkError (Some "429 RESOURCE_EXHAUSTED: quota exceeded")) /\
  includes "429 RESOURCE_EXHAUSTED: quota exceeded" "RESOURCE_EXHAUSTED" = true /\
  fst (GeminiService.validateApiKey env "k" Sample.world_with_key)
  = Normal true /\
  fst (SrcGeminiService.validateApiKey env "k" Sample.world_with_key)
  = Normal false.
Proof.
  repeat split; vm_compute; reflexivity.
Qed.

(* ===================================================================== *)
(** ** [editImageWithPrompt]: reading the response *)
(* ===================================================================== *)

Lemma scanParts_first (pre : list Part) (p : Part) (post : list Part) (b : Blob) :
  Forall (fun q => inlineData q = None) pre ->
  inlineData p = Some b ->
  scanParts (pre ++ p :: post) = Some (dataUrl b).
Proof.
  intros Hpre Hp. induction Hpre as [|q pre Hq _ IH]; simpl.
  - rewrite Hp. reflexivity.
  - rewrite Hq. exact IH.
Qed.

Lemma scanParts_none (ps : list Part) :
  Forall (fun q => inlineData q = None) ps -> scanParts ps = None.
Proof.
  induction 1 as [|q ps Hq _ IH]; simpl; [reflexivity|].
  rewrite Hq. exact IH.
Qed.

Lemma readResponse_blocked (r : GenerateContentResponse) (w : World) :
  no_usable_candidate r ->
  fst (readResponse r w) = Throw (new_Error msg_policy).
Proof.
  unfold readResponse.
  intros [H|[H|(first & others & H & [Hc|(c & Hc & Hp)])]]; rewrite H;
    try rewrite Hc; try rewrite Hp; reflexivity.
Qed.

Lemma readResponse_parts (r : GenerateContentResponse) (w : World)
  (first : Candidate) (others : list Candidate) (c : Content) (ps : list Part) :
  candidates r = Some (first :: others) ->
  content first = Some c ->
  parts c = Some ps ->
  readResponse r w = (Normal (scanParts ps), w).
Proof.
  unfold readResponse. intros -> -> ->. reflexivity.
Qed.

(** [readResponse] throws nothing but the content-policy error. *)
Lemma readResponse_throws (r : GenerateContentResponse) (w : World) (e : Error) :
  fst (readResponse r w) = Throw e -> e = new_Error msg_policy.
Proof.
  unfold readResponse.
  destruct (candidates r) as [[|first others]|]; simpl;
    try (intros [= <-]; reflexivity).
  destruct (content first) as [c|]; simpl; try (intros [= <-]; reflexivity).
  destruct (parts c) as [ps|]; simpl; intros [= <-]; reflexivity.
Qed.

Lemma policy_message_plain :
  message_mentions (new_Error msg_policy) "RESOURCE_EXHAUSTED" needle_code_429
  = false /\
  message_mentions (new_Error msg_policy) "API_KEY_INVALID" "permission" = false /\
  truthy msg_policy = true.
Proof. repeat split; vm_compute; reflexivity. Qed.

(** Once the key is there, the file is encoded and the service has answered,
    both clients settle as [readResponse] does on the answer. *)
Lemma editOf_resolved (env : Env) (client : Client) (file : FileWithPreview)
  (prompt0 : string) (w : World) (key base64Image : string)
  (r : GenerateContentResponse) :
  localStorage w !! "geminiApiKey" = Some key ->
  truthy key = true ->
  fileToBase64 env file = Some base64Image ->
  truthy base64Image = true ->
  remote env (List.length (requests w))
    (ImageEditRequest key (client_model client) base64Image
       (Types.type file) prompt0)
  = Resolved r ->
  fst (editOf env client file prompt0 w) = fst (readResponse r w).
Proof.
  intros Hkey Hk Hb64 Hb Hremote.
  destruct policy_message_plain as (Hq & Hc & Ht).
  destruct client as [model|]; simpl in Hremote;
    unfold editOf, GeminiService.editImageWithPrompt,
      SrcGeminiService.editImageWithPrompt,
      GeminiService.getApiKey, SrcGeminiService.getApiKey, getItem, bind;
    rewrite Hkey, Hk, Hb64, Hb; cbn [negb];
    unfold try_catch, bind, generateContent; rewrite Hremote.
  - match goal with
    | |- context [readResponse r ?w'] =>
        pose proof (readResponse_throws r w') as Hthrow;
        assert (Hsame : fst (readResponse r w') = fst (readResponse r w))
          by (unfold readResponse, policyBlocked, bind, console_error, modify,
                throw, ret; repeat case_match; reflexivity);
        rewrite <- Hsame; destruct (readResponse r w') as [[v|e] w'']
    end; [reflexivity|].
    simpl in Hthrow. rewrite (Hthrow e eq_refl).
    cbn [console_error modify bind]. rewrite Hq, Hc.
    unfold throw. reflexivity.
  - match goal with
    | |- context [readResponse r ?w'] =>
        pose proof (readResponse_throws r w') as Hthrow;
        assert (Hsame : fst (readResponse r w') = fst (readResponse r w))
          by (unfold readResponse, policyBlocked, bind, console_error, modify,
                throw, ret; repeat case_match; reflexivity);
        rewrite <- Hsame; destruct (readResponse r w') as [[v|e] w'']
    end; [reflexivity|].
    simpl in Hthrow. rewrite (Hthrow e eq_refl).
    cbn [console_error modify bind]. rewrite Hc. reflexivity.
Qed.

(** C3.  Given a key, an encodable file and an answer of the service,
    [editImageWithPrompt] (either revision) fails with the content-policy
    error when the answer has no candidates, an empty candidate list, no
    content or no parts; otherwise it returns the data URL of the first part
    with inline data, that is the text [data:], the MIME type of that part,
    [;base64,] and the payload of that part (a missing field is spliced in
    as [undefined]), and [null] when no part has inline data. *)
Theorem editImageWithPrompt_reads_first_inline_part
  (env : Env) (client : Client) (file : FileWithPreview) (prompt0 : string)
  (w : World) (key base64Image : string) (r : GenerateContentResponse) :
  localStorage w !! "geminiApiKey" = Some key ->
  truthy key = true ->
  fileToBase64 env file = Some base64Image ->
  truthy base64Image = true ->
  remote env (List.length (requests w))
    (ImageEditRequest key (client_model client) base64Image
       (Types.type file) prompt0)
  = Resolved r ->
  let result := fst (editOf env client file prompt0 w) in
  (no_usable_candidate r -> result = Throw (new_Error msg_policy)) /\
  (forall first others c ps,
      candidates r = Some (first :: others) ->
      content first = Some c ->
      parts c = Some ps ->
      (forall pre p post b,
          ps = pre ++ p :: post ->
          Forall (fun q => inlineData q = None) pre ->
          inlineData p = Some b ->
          result
          = Normal
              (Some ("data:" +:+ default "undefined" (mimeType b)
                     +:+ ";base64," +:+ default "undefined" (data b)))) /\
      (Forall (fun q => inlineData q = None) ps -> result = Normal None)).
Proof.
  intros Hkey Hk Hb64 Hb Hremote result.
  assert (Hres : result = fst (readResponse r w))
    by (eapply editOf_resolved; eassumption).
  split.
  - intros Hblocked. rewrite Hres. apply readResponse_blocked, Hblocked.
  - intros first others c ps Hcs Hc Hps.
    rewrite Hres, (readResponse_parts r w first others c ps Hcs Hc Hps).
    simpl. split.
    + intros pre p post b -> Hpre Hp.
      rewrite (scanParts_first pre p post b Hpre Hp).
      unfold dataUrl, tmpl. destruct (mimeType b), (data b); reflexivity.
    + intros Hnone. f_equal. apply scanParts_none, Hnone.
Qed.

Lemma editImageWithPrompt_reads_first_inline_part_witness :
  fst (editOf
         (Sample.env_with
            (Resolved
               (Sample.response_with
                  (Some [Sample.text_part "done";
                         Sample.image_part "image/webp" "UklGRg";
                         Sample.image_part "image/jpeg" "CCCC"]))))
         SrcRevision Sample.a_png "make it blue" Sample.world_with_key)
  = Normal (Some "data:image/webp;base64,UklGRg").
Proof.
  pose proof
    (editImageWithPrompt_reads_first_inline_part
       (Sample.env_with
          (Resolved
             (Sample.response_with
                (Some [Sample.text_part "done";
                       Sample.image_part "image/webp" "UklGRg";
                       Sample.image_part "image/jpeg" "CCCC"]))))
       SrcRevision
       Sample.a_png "make it blue" Sample.world_with_key "k" "AAAA"
       (Sample.response_with
          (Some [Sample.text_part "done";
                 Sample.image_part "image/webp" "UklGRg";
                 Sample.image_part "image/jpeg" "CCCC"]))) as H.
  assert (Hkey : localStorage Sample.world_with_key !! "geminiApiKey"
                 = Some "k") by (vm_compute; reflexivity).
  specialize (H Hkey eq_refl eq_refl eq_refl eq_refl).
  destruct H as [_ H].
  destruct (H _ [] _ _ eq_refl eq_refl eq_refl) as [Hfirst _].
  exact (Hfirst [Sample.text_part "done"]
           (Sample.image_part "image/webp" "UklGRg")
           [Sample.image_part "image/jpeg" "CCCC"]
           {| mimeType := Some "image/webp"; data := Some "UklGRg" |}
           eq_refl
           ltac:(repeat constructor)
           eq_refl).
Defined.

(* ===================================================================== *)
(** ** [handleGenerate]: the precondition gate *)
(* ===================================================================== *)

Example trim_is_empty_blank :
  App.trim_is_empty (" " +:+ String "009"%char (String "010"%char " ")) = true.
Proof. reflexivity. Qed.

Example trim_is_empty_nbsp :
  App.trim_is_empty (String "194"%char (String "160"%char " ")) = true.
Proof. reflexivity. Qed.

Example trim_is_empty_text : App.trim_is_empty "  make it blue " = false.
Proof. reflexivity. Qed.

(** C7.  [handleGenerate] checks the key flag, then the uploads, then the
    trimmed prompt.  The first check that fails sets its own message (the
    three are pairwise different), the handler returns with the world
    untouched, so no remote call was made whatever the edit client is, and
    only the missing-key case opens the settings panel. *)
Theorem handleGenerate_precondition_gate (env : Env)
  (edit : FileWithPreview -> string -> M (option string))
  (s : App.State) (w : World) :
  (App.msg_need_key <> App.msg_need_file /\
   App.msg_need_key <> App.msg_need_prompt /\
   App.msg_need_file <> App.msg_need_prompt) /\
  (App.hasApiKey s = false ->
   exists s',
     App.handleGenerate env edit s w = (Normal s', w) /\
     App.error s' = Some App.msg_need_key /\
     App.isSettingsOpen s' = true /\
     App.isLoading s' = App.isLoading s /\
     App.generatedImages s' = App.generatedImages s) /\
  (App.hasApiKey s = true -> App.uploadedFiles s = [] ->
   exists s',
     App.handleGenerate env edit s w = (Normal s', w) /\
     App.error s' = Some App.msg_need_file /\
     App.isSettingsOpen s' = App.isSettingsOpen s /\
     App.isLoading s' = App.isLoading s /\
     App.generatedImages s' = App.generatedImages s) /\
  (App.hasApiKey s = true -> App.uploadedFiles s <> [] ->
   App.trim_is_empty (App.prompt s) = true ->
   exists s',
     App.handleGenerate env edit s w = (Normal s', w) /\
     App.error s' = Some App.msg_need_prompt /\
     App.isSettingsOpen s' = App.isSettingsOpen s /\
     App.isLoading s' = App.isLoading s /\
     App.generatedImages s' = App.generatedImages s).
Proof.
  split; [repeat split; discriminate|].
  unfold App.handleGenerate. split; [|split].
  - intros ->. eexists. simpl. repeat split.
  - intros -> ->. eexists. simpl. repeat split.
  - intros -> Hfiles ->.
    destruct (App.uploadedFiles s) as [|f files]; [congruence|].
    eexists. simpl. repeat split.
Qed.

Lemma handleGenerate_precondition_gate_witness :
  exists s',
    App.handleGenerate (Sample.env_rejecting "unreachable")
      (editOf (Sample.env_rejecting "unreachable") SrcRevision)
      (Sample.ready []) Sample.world_with_key
    = (Normal s', Sample.world_with_key) /\
    App.error s' = Some App.msg_need_file /\
    App.isSettingsOpen s' = false /\
    App.isLoading s' = false /\
    App.generatedImages s' = [].
Proof.
  exact (proj1 (proj2 (proj2
           (handleGenerate_precondition_gate
              (Sample.env_rejecting "unreachable")
              (editOf (Sample.env_rejecting "unreachable") SrcRevision)
              (Sample.ready []) Sample.world_with_key)))
           eq_refl eq_refl).
Defined.

(* ===================================================================== *)
(** ** The gallery effects *)
(* ===================================================================== *)

(** What [persistEffect] does, in one equation: it never throws; when the
    gallery is non-empty or a non-empty entry is stored it tries to write
    the serialized gallery, which lands if the store has room and is logged
    if not; otherwise it leaves the world alone. *)
Lemma persistEffect_run (images : list GeneratedImage) (w : World) :
  App.persistEffect images w
  = (Normal tt,
     if match images with [] => false | _ :: _ => true end
        || truthy_opt (localStorage w !! "generatedImages")
     then
       if store_accepts w "generatedImages" (JSON.stringify images)
       then stored "generatedImages" (JSON.stringify images) w
       else with_console
              (fun l => l ++ ["Failed to save images to localStorage:"]) w
     else w).
Proof.
  unfold App.persistEffect, try_catch, bind, getItem, setItem_charged,
    console_error, modify, ret.
  destruct images as [|img images]; simpl.
  - destruct (truthy_opt (localStorage w !! "generatedImages")); [|reflexivity].
    destruct (store_accepts w "generatedImages" (JSON.stringify []));
      reflexivity.
  - destruct (store_accepts w "generatedImages"
                (JSON.stringify (img :: images))); reflexivity.
Qed.

Lemma stored_cells (key value : string) (w : World) :
  localStorage (stored key value w) !! key = Some value /\
  (forall k, k <> key ->
             localStorage (stored key value w) !! k = localStorage w !! k) /\
  console (stored key value w) = console w /\
  alerts (stored key value w) = alerts w /\
  requests (stored key value w) = requests w.
Proof.
  unfold stored. simpl. split; [apply lookup_insert_eq|].
  split; [intros k Hk; apply lookup_insert_ne; congruence|].
  repeat split.
Qed.

Lemma commit_same_ref (before after : App.State) (w : World) :
  App.generatedImages_ref before = App.generatedImages_ref after ->
  App.commit before after w = (Normal tt, w).
Proof.
  intros H. unfold App.commit. rewrite H, Nat.eqb_refl. reflexivity.
Qed.

Lemma commit_fresh_ref (before after : App.State) (w : World) :
  App.generatedImages_ref after = S (App.generatedImages_ref before) ->
  App.commit before after w = App.persistEffect (App.generatedImages after) w.
Proof.
  intros H. unfold App.commit. rewrite H.
  destruct (Nat.eqb_spec (App.generatedImages_ref before)
              (S (App.generatedImages_ref before))) as [Heq|_]; [lia|].
  reflexivity.
Qed.

(** [keyEffect] completes, and touches neither the gallery, the error
    banner, storage nor the alerts; it may add a console line. *)
Lemma keyEffect_frame (env : Env) (s : App.State) (w : World) :
  exists s1 w1 extra,
    App.keyEffect env s w = (Normal s1, w1) /\
    App.generatedImages s1 = App.generatedImages s /\
    App.generatedImages_ref s1 = App.generatedImages_ref s /\
    App.error s1 = App.error s /\
    localStorage w1 = localStorage w /\
    alerts w1 = alerts w /\
    console w1 = console w ++ extra.
Proof.
  unfold App.keyEffect, bind, SrcGeminiService.getApiKey, getItem, ret.
  destruct (pickerSupported env); simpl;
    (destruct (localStorage w !! "geminiApiKey") as [k|];
     [destruct (truthy k)|]);
    try (eexists _, _, []; repeat split; symmetry; apply app_nil_r);
    eexists _, _, [_]; repeat split.
Qed.

(** C8, as stated, fails on an entry that is the empty string: it does not
    parse as JSON, yet [mount] neither removes it nor logs anything about
    it. *)
Lemma mount_keeps_empty_entry :
  let env := Sample.env_rejecting "unused" in
  let w := Sample.world_of {[ "generatedImages" := EmptyString ]} in
  localStorage w !! "generatedImages" = Some EmptyString /\
  JSON_parse env EmptyString = None /\
  localStorage (snd (App.mount env w)) !! "generatedImages" = Some EmptyString /\
  ~ In "Failed to parse stored images from localStorage:"
      (console (snd (App.mount env w))).
Proof.
  split; [vm_compute; reflexivity|].
  split; [reflexivity|].
  split; [vm_compute; reflexivity|].
  vm_compute. intros [H|[]]. discriminate H.
Qed.

(** C8, amended.  At startup, when the stored gallery entry is a non-empty
    string that [JSON.parse] rejects, [mount] completes normally with an
    empty gallery, the entry is gone from storage, the failure is on the
    console, and neither the error banner nor an alert shows anything. *)
Theorem mount_discards_unparsable_gallery (env : Env) (w : World) (raw : string) :
  localStorage w !! "generatedImages" = Some raw ->
  raw <> EmptyString ->
  JSON_parse env raw = None ->
  exists s' w',
    App.mount env w = (Normal s', w') /\
    App.generatedImages s' = [] /\
    localStorage w' !! "generatedImages" = None /\
    In "Failed to parse stored images from localStorage:" (console w') /\
    App.error s' = None /\
    alerts w' = alerts w.
Proof.
  intros Hraw Hne Hparse.
  assert (Ht : truthy raw = true) by (destruct raw; [congruence|reflexivity]).
  destruct (keyEffect_frame env App.initialState w)
    as (s1 & w1 & extra & Hkey & Hg1 & Hr1 & He1 & Hls1 & Hal1 & Hco1).
  unfold App.mount, bind at 1. rewrite Hkey.
  unfold App.hydrateEffect, bind, getItem, ret.
  rewrite Hls1, Hraw, Ht, Hparse.
  unfold removeItem_charged. cbn [console_error modify bind ret].
  rewrite persistEffect_run. cbn [App.generatedImages App.initialState].
  cbn [localStorage with_localStorage with_console with_free].
  rewrite lookup_delete_eq. cbn [truthy_opt orb].
  rewrite commit_same_ref by (rewrite Hr1; reflexivity).
  exists s1. eexists. split; [reflexivity|].
  cbn [localStorage console alerts with_localStorage with_console with_free].
  split; [exact Hg1|]. split; [apply lookup_delete_eq|].
  split; [apply in_or_app; right; left; reflexivity|].
  split; [exact He1|exact Hal1].
Qed.

Lemma mount_discards_unparsable_gallery_witness :
  exists s' w',
    App.mount (Sample.env_rejecting "unused")
      (Sample.world_of {[ "generatedImages" := "{oops" ]})
    = (Normal s', w') /\
    App.generatedImages s' = [] /\
    localStorage w' !! "generatedImages" = None /\
    In "Failed to parse stored images from localStorage:" (console w') /\
    App.error s' = None /\
    alerts w' = [].
Proof.
  apply (mount_discards_unparsable_gallery
           (Sample.env_rejecting "unused")
           (Sample.world_of {[ "generatedImages" := "{oops" ]}) "{oops").
  - vm_compute. reflexivity.
  - discriminate.
  - reflexivity.
Defined.

(** A deletion that passes the guard, followed by its render: the selected
    id is filtered out, the detail view closes, one alert is shown and the
    persistence effect runs on the new gallery. *)
Lemma dispatch_handleDeleteImage_run (s : App.State) (w : World)
  (sel : GeneratedImage) :
  App.selectedImage s = Some sel ->
  Types.id sel <> EmptyString ->
  let s' :=
    App.setSelectedImage None
      (App.setGeneratedImages
         (List.filter
            (fun img : GeneratedImage =>
               negb (String.eqb (Types.id img) (Types.id sel))))
         s) in
  App.dispatch App.handleDeleteImage s w
  = (Normal s',
     snd (App.persistEffect (App.generatedImages s')
            (with_alerts (fun l => l ++ ["Ảnh đã được xóa!"]) w))).
Proof.
  intros Hsel Hid s'.
  assert (Ht : truthy (Types.id sel) = true)
    by (destruct (Types.id sel); [congruence|reflexivity]).
  unfold App.dispatch, App.handleDeleteImage, bind at 1.
  rewrite Hsel, Ht. cbn [alert modify bind ret]. fold s'.
  unfold bind.
  rewrite (commit_fresh_ref s s') by reflexivity.
  rewrite persistEffect_run. reflexivity.
Qed.

(** A text no longer than the one it replaces is always accepted. *)
Lemma store_accepts_shorter (w : World) (key old value : string) :
  localStorage w !! key = Some old ->
  (String.length value <= String.length old)%nat ->
  store_accepts w key value = true.
Proof.
  intros Hold Hlen. unfold store_accepts. rewrite Hold. cbn [entry_size].
  apply N.leb_le. lia.
Qed.

(** Room given up by a shorter text is there to take the old text back. *)
Lemma store_accepts_restore (w : World) (key old value : string) :
  localStorage w !! key = Some old ->
  (String.length value <= String.length old)%nat ->
  store_accepts (stored key value w) key old = true.
Proof.
  intros Hold Hlen. unfold store_accepts, stored. simpl.
  rewrite lookup_insert_eq, Hold. cbn [entry_size].
  apply N.leb_le. lia.
Qed.

(** What decides [store_accepts] is storage and the free room only. *)
Lemma store_accepts_ext (w w' : World) (key value : string) :
  localStorage w' = localStorage w -> free w' = free w ->
  store_accepts w' key value = store_accepts w key value.
Proof. intros Hls Hfree. unfold store_accepts. rewrite Hls, Hfree. reflexivity. Qed.

(** C10, as stated, fails in two ways.  When the entry exists but holds the
    empty string and the gallery is empty, the effect does not write, and
    the entry is not the serialized empty collection afterwards.  When the
    gallery is non-empty but the store has no room, the write is refused:
    the failure is logged and no entry appears. *)
Lemma persistEffect_skips_or_is_refused :
  (let w := Sample.world_of {[ "generatedImages" := EmptyString ]} in
   localStorage w !! "generatedImages" = Some EmptyString /\
   localStorage (snd (App.persistEffect [] w)) !! "generatedImages"
   = Some EmptyString /\
   Some EmptyString <> Some (JSON.stringify [])) /\
  (let w := with_free (fun _ => 0%N) Sample.world_with_key in
   let w' := snd (App.persistEffect [Sample.image "a.png-1"] w) in
   localStorage w !! "generatedImages" = None /\
   localStorage w' !! "generatedImages" = None /\
   console w' = ["Failed to save images to localStorage:"]).
Proof.
  split.
  - split; [vm_compute; reflexivity|].
    split; [vm_compute; reflexivity|].
    vm_compute. discriminate.
  - repeat split; vm_compute; reflexivity.
Qed.

(** C10, amended.  The persistence effect never throws.  When the gallery is
    non-empty, or the stored entry is a non-empty string, it tries to set
    the entry to the serialized gallery: if the store accepts the text the
    entry holds it afterwards, no other key has changed and nothing is
    logged; if the store refuses it, storage and the free room are as
    before and the failure is logged.  A text no longer than the stored one
    is always accepted.  When the gallery is empty and the entry is absent
    or the empty string, the world is left as it was, so no entry is
    created.  Deleting the only record while a non-empty entry is stored
    leaves the entry in place, holding the serialized empty collection,
    provided the store accepts that text. *)
Theorem persistEffect_writes_when_accepted
  (images : list GeneratedImage) (w : World) :
  let w' := snd (App.persistEffect images w) in
  fst (App.persistEffect images w) = Normal tt /\
  (images <> [] \/
   (exists v, localStorage w !! "generatedImages" = Some v /\ v <> EmptyString) ->
   (store_accepts w "generatedImages" (JSON.stringify images) = true ->
    localStorage w'
    = <["generatedImages" := JSON.stringify images]> (localStorage w) /\
    console w' = console w) /\
   (store_accepts w "generatedImages" (JSON.stringify images) = false ->
    localStorage w' = localStorage w /\
    free w' = free w /\
    console w'
    = console w ++ ["Failed to save images to localStorage:"])) /\
  (forall old,
      localStorage w !! "generatedImages" = Some old ->
      (String.length (JSON.stringify images) <= String.length old)%nat ->
      store_accepts w "generatedImages" (JSON.stringify images) = true) /\
  (images = [] ->
   localStorage w !! "generatedImages" = None \/
   localStorage w !! "generatedImages" = Some EmptyString ->
   w' = w) /\
  (forall (s : App.State) (sel : GeneratedImage),
      App.selectedImage s = Some sel ->
      Types.id sel <> EmptyString ->
      App.generatedImages s = [sel] ->
      (exists v, localStorage w !! "generatedImages" = Some v /\ v <> EmptyString) ->
      store_accepts w "generatedImages" (JSON.stringify []) = true ->
      exists s' w2,
        App.dispatch App.handleDeleteImage s w = (Normal s', w2) /\
        App.generatedImages s' = [] /\
        localStorage w2 !! "generatedImages" = Some "[]").
Proof.
  cbv zeta. rewrite persistEffect_run. cbn [fst snd].
  split; [reflexivity|]. split; [|split; [|split]].
  - intros Hgate.
    assert (Hgo : match images with [] => false | _ :: _ => true end
                  || truthy_opt (localStorage w !! "generatedImages") = true).
    { destruct Hgate as [Hne|(v & Hv & Hne)].
      - destruct images; [congruence|reflexivity].
      - rewrite Hv. destruct v; [congruence|]. apply orb_true_r. }
    rewrite Hgo. split; intros Hacc; rewrite Hacc.
    + split; reflexivity.
    + repeat split.
  - intros old Hold Hlen. eapply store_accepts_shorter; eassumption.
  - intros -> [H|H]; rewrite H; reflexivity.
  - intros s sel Hsel Hid Hgal (v & Hv & Hne) Hacc.
    rewrite (dispatch_handleDeleteImage_run s w sel Hsel Hid).
    eexists _, _. split; [reflexivity|].
    assert (Hempty :
              List.filter
                (fun img : GeneratedImage =>
                   negb (String.eqb (Types.id img) (Types.id sel)))
                (App.generatedImages s) = []).
    { rewrite Hgal. simpl. rewrite String.eqb_refl. reflexivity. }
    cbn [App.generatedImages App.setSelectedImage App.setGeneratedImages].
    rewrite Hempty. split; [reflexivity|].
    rewrite persistEffect_run. cbn [snd localStorage with_alerts].
    rewrite Hv. destruct v; [congruence|]. cbn [truthy_opt truthy orb].
    rewrite (store_accepts_ext w) by reflexivity. rewrite Hacc.
    apply stored_cells.
Qed.

Lemma persistEffect_writes_when_accepted_witness :
  localStorage
    (snd (App.persistEffect []
            (Sample.world_of {[ "generatedImages" := "[{}]" ]})))
  = <["generatedImages" := JSON.stringify []]>
      (localStorage (Sample.world_of {[ "generatedImages" := "[{}]" ]})) /\
  snd (App.persistEffect [] Sample.world_with_key) = Sample.world_with_key.
Proof.
  pose proof (persistEffect_writes_when_accepted []
                (Sample.world_of {[ "generatedImages" := "[{}]" ]}))
    as (_ & Hwrite & _).
  pose proof (persistEffect_writes_when_accepted []
                Sample.world_with_key) as (_ & _ & _ & Hskip & _).
  split.
  - apply Hwrite.
    + right. exists "[{}]". split; [vm_compute; reflexivity|discriminate].
    + vm_compute. reflexivity.
  - apply Hskip; [reflexivity|]. left. vm_compute. reflexivity.
Defined.

(** Why [storage_reflects] is the right reading of agreement: from a storage
    that reflects a gallery, [hydrateEffect] brings back that gallery, as
    long as [JSON.parse] inverts [JSON.stringify] on it. *)
Lemma hydrateEffect_reads_reflected_gallery (env : Env) (s : App.State)
  (w : World) (images : list GeneratedImage) :
  storage_reflects (localStorage w) images ->
  JSON_parse env (JSON.stringify images) = Some images ->
  App.generatedImages s = [] ->
  exists s',
    App.hydrateEffect env s w = (Normal s', w) /\
    App.generatedImages s' = images.
Proof.
  intros [Hstored|[-> Hnone]] Hparse Hempty;
    unfold App.hydrateEffect, bind, getItem, ret.
  - rewrite Hstored.
    assert (Ht : truthy (JSON.stringify images) = true) by reflexivity.
    rewrite Ht, Hparse. eexists. split; reflexivity.
  - destruct (localStorage w !! "generatedImages") as [raw|].
    + simpl in Hnone. rewrite Hnone. exists s. split; [reflexivity|exact Hempty].
    + exists s. split; [reflexivity|exact Hempty].
Qed.

(* ===================================================================== *)
(** ** [handleDeleteImage] *)
(* ===================================================================== *)

(** C6, as stated, fails in three ways.  For the empty id the guard of
    [handleDeleteImage] treats the selection as absent, and the record stays
    in the gallery.  For an id shared by two records, deleting the selected
    one removes the other as well.  And when the store has no room and holds
    no gallery entry (the save of the batch was refused), the save after the
    deletion is refused too: the gallery shrinks, storage does not follow. *)
Lemma handleDeleteImage_empty_shared_or_refused :
  (let gallery := [Sample.image EmptyString; Sample.image "b.png-2"] in
   let s := Sample.viewing gallery (Sample.image EmptyString) in
   exists s',
     fst (App.dispatch App.handleDeleteImage s Sample.world_with_key)
     = Normal s' /\
     App.generatedImages s' = gallery /\
     In (Sample.image EmptyString) (App.generatedImages s')) /\
  (let twin := Sample.image_from "a.png-1" "data:image/png;base64,CCCC" in
   let gallery := [Sample.image "a.png-1"; twin; Sample.image "b.png-2"] in
   let s := Sample.viewing gallery (Sample.image "a.png-1") in
   exists s',
     fst (App.dispatch App.handleDeleteImage s Sample.world_with_key)
     = Normal s' /\
     twin <> Sample.image "a.png-1" /\
     In twin gallery /\
     App.generatedImages s' = [Sample.image "b.png-2"]) /\
  (let gallery := [Sample.image "a.png-1"; Sample.image "b.png-2"] in
   let s := Sample.viewing gallery (Sample.image "a.png-1") in
   let w := with_free (fun _ => 0%N) Sample.world_with_key in
   exists s' w',
     App.dispatch App.handleDeleteImage s w = (Normal s', w') /\
     App.generatedImages s' = [Sample.image "b.png-2"] /\
     localStorage w' !! "generatedImages" = None /\
     ~ storage_reflects (localStorage w') (App.generatedImages s') /\
     console w' = ["Failed to save images to localStorage:"]).
Proof.
  split; [|split].
  - eexists. split; [vm_compute; reflexivity|].
    split; [reflexivity|]. left. reflexivity.
  - eexists. split; [vm_compute; reflexivity|].
    split; [discriminate|]. split; [right; left; reflexivity|].
    vm_compute. reflexivity.
  - eexists _, _. split; [vm_compute; reflexivity|].
    split; [reflexivity|]. split; [vm_compute; reflexivity|].
    split; [|reflexivity].
    intros [Hentry|[Hnil _]]; [vm_compute in Hentry|]; discriminate.
Qed.

(** The serialized gallery: its length, and how it shrinks with the gallery. *)
Lemma length_string_app (a b : string) :
  String.length (a +:+ b) = (String.length a + String.length b)%nat.
Proof.
  induction a as [|x a IH]; [reflexivity|].
  change (S (String.length (a +:+ b))
          = S (String.length a + String.length b)). rewrite IH. reflexivity.
Qed.

Lemma length_join_cons (sep x : string) (l : list string) :
  String.length (JSON.join sep (x :: l))
  = (String.length x
     + match l with
       | [] => 0
       | _ :: _ => String.length sep + String.length (JSON.join sep l)
       end)%nat.
Proof.
  destruct l as [|y l]; [simpl; lia|].
  change (JSON.join sep (x :: y :: l))
    with (x +:+ sep +:+ JSON.join sep (y :: l)).
  rewrite !length_string_app. reflexivity.
Qed.

Lemma length_join_sublist (sep : string) (l l' : list string) :
  l `sublist_of` l' ->
  (String.length (JSON.join sep l) <= String.length (JSON.join sep l'))%nat.
Proof.
  induction 1 as [|x l1 l2 Hsub IH|x l1 l2 Hsub IH].
  - reflexivity.
  - rewrite !length_join_cons.
    destruct l1 as [|y l1]; [lia|].
    destruct l2 as [|z l2]; [inversion Hsub|]. lia.
  - rewrite length_join_cons.
    destruct l2 as [|z l2]; [|lia].
    inversion Hsub; subst. simpl. lia.
Qed.

Lemma map_sublist {A B : Type} (f : A -> B) (l l' : list A) :
  l `sublist_of` l' -> List.map f l `sublist_of` List.map f l'.
Proof. induction 1; simpl; constructor; assumption. Qed.

Lemma length_stringify_sublist (l l' : list GeneratedImage) :
  l `sublist_of` l' ->
  (String.length (JSON.stringify l) <= String.length (JSON.stringify l'))%nat.
Proof.
  intros Hsub. unfold JSON.stringify.
  change (String.length ("[" +:+ JSON.join "," (List.map JSON.stringify_image l) +:+ "]")
          <= String.length ("[" +:+ JSON.join "," (List.map JSON.stringify_image l') +:+ "]"))%nat.
  rewrite !length_string_app.
  pose proof (length_join_sublist ","
                (List.map JSON.stringify_image l)
                (List.map JSON.stringify_image l')
                (map_sublist JSON.stringify_image l l' Hsub)).
  lia.
Qed.

Lemma stringify_truthy (l : list GeneratedImage) :
  truthy (JSON.stringify l) = true.
Proof. reflexivity. Qed.

(** C6, amended.  When the selected record has a non-empty id, deleting it
    leaves no record with that id in the gallery (all of them go if the id
    is shared), the new gallery is the old one with records deleted and
    nothing reordered, and every order-respecting selection of records with
    other ids is still there.  After the render that follows, the stored
    entry agrees with the new gallery if the store accepts its text, and
    nothing is logged then; if the store refuses the text, storage is what
    it was.  The text is accepted whenever the entry agreed with the gallery
    before the deletion, so agreement is preserved. *)
Theorem handleDeleteImage_removes_selected_id (s : App.State) (w : World)
  (sel : GeneratedImage) :
  App.selectedImage s = Some sel ->
  Types.id sel <> EmptyString ->
  exists s' w',
    App.dispatch App.handleDeleteImage s w = (Normal s', w') /\
    Forall (fun img : GeneratedImage => Types.id img <> Types.id sel)
      (App.generatedImages s') /\
    App.generatedImages s' `sublist_of` App.generatedImages s /\
    (forall kept : list GeneratedImage,
        kept `sublist_of` App.generatedImages s ->
        Forall (fun img : GeneratedImage => Types.id img <> Types.id sel) kept ->
        kept `sublist_of` App.generatedImages s') /\
    (store_accepts w "generatedImages"
       (JSON.stringify (App.generatedImages s')) = true ->
     storage_reflects (localStorage w') (App.generatedImages s') /\
     console w' = console w) /\
    (store_accepts w "generatedImages"
       (JSON.stringify (App.generatedImages s')) = false ->
     localStorage w' = localStorage w) /\
    (storage_reflects (localStorage w) (App.generatedImages s) ->
     storage_reflects (localStorage w') (App.generatedImages s')) /\
    App.selectedImage s' = None.
Proof.
  intros Hsel Hid.
  rewrite (dispatch_handleDeleteImage_run s w sel Hsel Hid).
  eexists _, _. split; [reflexivity|].
  cbn [App.generatedImages App.selectedImage App.setSelectedImage
         App.setGeneratedImages].
  split; [apply (filter_key_Forall Types.id)|].
  split; [apply (filter_key_sublist Types.id)|].
  split; [intros kept Hsub Hall;
          apply (filter_key_greatest Types.id); assumption|].
  pose proof (filter_key_sublist Types.id (Types.id sel)
                (App.generatedImages s)) as Hsub.
  unfold other_key in Hsub.
  set (gallery := List.filter _ (App.generatedImages s)) in *.
  rewrite persistEffect_run. cbn [snd].
  set (w1 := with_alerts _ w).
  rewrite (store_accepts_ext w w1) by reflexivity.
  assert (Haccepted :
            storage_reflects
              (localStorage
                 (if match gallery with [] => false | _ :: _ => true end
                     || truthy_opt (localStorage w1 !! "generatedImages")
                  then stored "generatedImages" (JSON.stringify gallery) w1
                  else w1))
              gallery).
  { unfold storage_reflects.
    destruct gallery as [|img rest].
    - cbn [orb].
      destruct (truthy_opt (localStorage w1 !! "generatedImages")) eqn:Hstored.
      + left. apply stored_cells.
      + right. split; [reflexivity|exact Hstored].
    - left. apply stored_cells. }
  split; [|split; [|split; [|reflexivity]]].
  - intros Hacc. rewrite Hacc. split; [exact Haccepted|].
    destruct (_ || _); reflexivity.
  - intros Hacc. rewrite Hacc. destruct (_ || _); reflexivity.
  - intros [Hentry|[Hnil Hentry]].
    + assert (Hacc : store_accepts w "generatedImages"
                       (JSON.stringify gallery) = true).
      { eapply store_accepts_shorter; [exact Hentry|].
        apply length_stringify_sublist, Hsub. }
      rewrite Hacc. exact Haccepted.
    + assert (Hgal : gallery = []) by (subst gallery; rewrite Hnil; reflexivity).
      rewrite Hgal. cbn [orb]. subst w1. cbn [localStorage with_alerts].
      rewrite Hentry. right. split; [reflexivity|exact Hentry].
Qed.

Lemma handleDeleteImage_removes_selected_id_witness :
  exists s' w',
    App.dispatch App.handleDeleteImage
      (Sample.viewing
         [Sample.image "a.png-1"; Sample.image "b.png-2";
          Sample.image "a.png-1"]
         (Sample.image "a.png-1"))
      Sample.world_with_key
    = (Normal s', w') /\
    App.generatedImages s' = [Sample.image "b.png-2"] /\
    localStorage w' !! "generatedImages"
    = Some (JSON.stringify [Sample.image "b.png-2"]).
Proof.
  destruct (handleDeleteImage_removes_selected_id
              (Sample.viewing
                 [Sample.image "a.png-1"; Sample.image "b.png-2";
                  Sample.image "a.png-1"]
                 (Sample.image "a.png-1"))
              Sample.world_with_key (Sample.image "a.png-1")
              eq_refl ltac:(discriminate))
    as (s' & w' & Hrun & _).
  exists s', w'. split; [exact Hrun|].
  vm_compute in Hrun. injection Hrun as <- <-.
  split; vm_compute; reflexivity.
Defined.

(* ===================================================================== *)
(** ** [handleGenerate]: the loop *)
(* ===================================================================== *)

Lemma string_app_assoc (a b c : string) : (a +:+ b) +:+ c = a +:+ b +:+ c.
Proof.
  induction a as [|x a IH]; [reflexivity|].
  change (String x ((a +:+ b) +:+ c) = String x (a +:+ b +:+ c)).
  rewrite IH. reflexivity.
Qed.

Lemma truthy_app_l (a b : string) : truthy a = true -> truthy (a +:+ b) = true.
Proof. destruct a; [discriminate|reflexivity]. Qed.

Lemma join_merge_head (sep a b : string) (rest : list string) :
  join sep (((a +:+ sep) +:+ b) :: rest) = a +:+ sep +:+ join sep (b :: rest).
Proof.
  unfold join. destruct rest as [|x rest]; simpl.
  - apply string_app_assoc.
  - rewrite !string_app_assoc. reflexivity.
Qed.

(** Appending non-empty messages one by one, as the [setError] updater does,
    builds their join with line feeds. *)
Lemma fold_appendError_from (msgs : list string) (p : string) :
  truthy p = true ->
  fold_left (fun e m => App.appendError m e) msgs (Some p)
  = Some (join LF (p :: msgs)).
Proof.
  revert p. induction msgs as [|m msgs IH]; intros p Hp; simpl.
  - reflexivity.
  - unfold App.appendError at 2. rewrite Hp.
    rewrite IH by (apply truthy_app_l, truthy_app_l, Hp).
    rewrite join_merge_head. reflexivity.
Qed.

Lemma fold_appendError (msgs : list string) :
  Forall (fun m => truthy m = true) msgs ->
  fold_left (fun e m => App.appendError m e) msgs None
  = match msgs with
    | [] => None
    | _ :: _ => Some (join LF msgs)
    end.
Proof.
  intros Hall. destruct Hall as [|m msgs Hm _]; simpl; [reflexivity|].
  apply fold_appendError_from, Hm.
Qed.

Lemma failure_message_truthy
  (outcomes : list (FileWithPreview * Completion (option string))) :
  Forall (fun m => truthy m = true) (omap failure_message outcomes).
Proof.
  apply List.Forall_forall. intros m Hm.
  apply list_elem_of_In, list_elem_of_omap in Hm.
  destruct Hm as ([f c] & _ & Hm).
  destruct c as [[u|]|e]; simpl in Hm;
    [destruct (truthy u); [discriminate|]| |];
    injection Hm as <-; reflexivity.
Qed.

(** Both edit clients leave the ghost trace alone and issue at most one
    remote request per call. *)
Lemma editOf_frame (env : Env) (client : Client) (f : FileWithPreview)
  (p : string) (w : World) :
  trace (snd (editOf env client f p w)) = trace w /\
  (List.length (requests (snd (editOf env client f p w)))
   <= S (List.length (requests w)))%nat.
Proof.
  destruct client as [model|];
    unfold editOf, GeminiService.editImageWithPrompt,
      SrcGeminiService.editImageWithPrompt,
      GeminiService.getApiKey, SrcGeminiService.getApiKey, getItem, bind,
      try_catch, generateContent, readResponse, policyBlocked, bind,
      console_error, modify, throw, ret;
    repeat case_match; simplify_eq; simpl;
    rewrite ?length_app; simpl; split; (reflexivity || lia).
Qed.

Lemma saveImageToFileSystem_frame (env : Env) (handle : option string)
  (u fileName : string) (w : World) :
  exists w',
    App.saveImageToFileSystem env handle u fileName w = (Normal tt, w') /\
    trace w' = trace w /\ requests w' = requests w.
Proof.
  unfold App.saveImageToFileSystem, bind, console_error, alert, modify, ret.
  repeat case_match; eexists; repeat split.
Qed.

Section Loop.

Variable env : Env.
Variable edit : FileWithPreview -> string -> M (option string).

Hypothesis edit_frame :
  forall f p w,
    trace (snd (edit f p w)) = trace w /\
    (List.length (requests (snd (edit f p w)))
     <= S (List.length (requests w)))%nat.

(** One iteration: it completes, brackets exactly one edit call with its
    two ghost events, costs at most one request, and either appends one
    record to the accumulator or one message to the error text. *)
Lemma processFile_step (prompt0 : string) (handle : option string)
  (file : FileWithPreview) (s : App.State) (run : list GeneratedImage)
  (w : World) :
  exists s' recs w' c,
    App.processFile env edit prompt0 handle file (s, run) w
    = (Normal (s', run ++ recs), w') /\
    c = fst (edit file prompt0 (with_trace (fun l => l ++ [EditStarted file]) w)) /\
    trace w' = trace w ++ [EditStarted file; EditSettled file c] /\
    (List.length (requests w') <= S (List.length (requests w)))%nat /\
    App.error s'
    = match failure_message (file, c) with
      | Some m => App.appendError m (App.error s)
      | None => App.error s
      end /\
    match success_url (file, c) with
    | Some (f, u) => exists t, recs = [record_of prompt0 f u t]
    | None => recs = []
    end /\
    App.generatedImages s' = App.generatedImages s /\
    App.generatedImages_ref s' = App.generatedImages_ref s /\
    App.hasApiKey s'
    = match c with
      | Throw e =>
          if message_mentions e "API Key" "API key" then false
          else App.hasApiKey s
      | Normal _ => App.hasApiKey s
      end /\
    App.isSettingsOpen s'
    = match c with
      | Throw e =>
          if message_mentions e "API Key" "API key" then true
          else App.isSettingsOpen s
      | Normal _ => App.isSettingsOpen s
      end.
Proof.
  unfold App.processFile, bind, emit, modify, try_catch.
  set (w0 := with_trace (fun l => l ++ [EditStarted file]) w).
  destruct (edit_frame file prompt0 w0) as [Htr Hreq].
  destruct (edit file prompt0 w0) as [c w1]. simpl in Htr, Hreq.
  assert (Htrace :
            trace (with_trace (fun l => l ++ [EditSettled file c]) w1)
            = trace w ++ [EditStarted file; EditSettled file c])
    by (simpl; rewrite Htr; subst w0; simpl;
        rewrite <- List.app_assoc; reflexivity).
  assert (Hrequests :
            (List.length
               (requests (with_trace (fun l => l ++ [EditSettled file c]) w1))
             <= S (List.length (requests w)))%nat) by exact Hreq.
  destruct c as [[u|]|e].
  - destruct (truthy u) eqn:Hu.
    + unfold now, ret.
      destruct handle as [h|].
      * match goal with
        | |- context [App.saveImageToFileSystem env ?h ?a ?b ?x] =>
            destruct (saveImageToFileSystem_frame env h a b x)
              as (w2 & Hsave & Htr2 & Hreq2)
        end.
        rewrite Hsave.
        eexists s, [_], w2, _. split; [reflexivity|].
        split; [reflexivity|].
        split; [rewrite Htr2; exact Htrace|].
        split; [rewrite Hreq2; exact Hrequests|].
        simpl. rewrite Hu. repeat split. eexists. reflexivity.
      * eexists s, [_], _, _. split; [reflexivity|].
        split; [reflexivity|].
        split; [exact Htrace|]. split; [exact Hrequests|].
        simpl. rewrite Hu. repeat split. eexists. reflexivity.
    + eexists _, [], _, _. rewrite app_nil_r.
      split; [reflexivity|]. split; [reflexivity|].
      split; [exact Htrace|]. split; [exact Hrequests|].
      simpl. rewrite Hu. repeat split.
  - eexists _, [], _, _. rewrite app_nil_r.
    split; [reflexivity|]. split; [reflexivity|].
    split; [exact Htrace|]. split; [exact Hrequests|].
    simpl. repeat split.
  - cbn [console_error modify].
    destruct (message_mentions e "API Key" "API key") eqn:Hmentions;
      eexists _, [], _, _; rewrite app_nil_r;
      (split; [reflexivity|]); (split; [reflexivity|]);
      (split; [exact Htrace|]); (split; [exact Hrequests|]);
      simpl; rewrite Hmentions; repeat split.
Qed.

(** The whole loop, by induction on the uploaded files. *)
Lemma forFiles_run (prompt0 : string) (handle : option string)
  (files : list FileWithPreview) :
  forall (s : App.State) (run : list GeneratedImage) (w : World),
  exists s' recs w' outcomes,
    App.forFiles env edit prompt0 handle files (s, run) w
    = (Normal (s', run ++ recs), w') /\
    List.map fst outcomes = files /\
    trace w' = trace w ++ events_of outcomes /\
    (List.length (requests w')
     <= List.length (requests w) + List.length files)%nat /\
    App.error s'
    = fold_left (fun e m => App.appendError m e)
        (omap failure_message outcomes) (App.error s) /\
    Forall2 (built_from prompt0) recs (omap success_url outcomes) /\
    App.generatedImages s' = App.generatedImages s /\
    App.generatedImages_ref s' = App.generatedImages_ref s /\
    App.hasApiKey s'
    = (if existsb mentions_key outcomes then false else App.hasApiKey s) /\
    App.isSettingsOpen s'
    = (if existsb mentions_key outcomes then true else App.isSettingsOpen s).
Proof.
  induction files as [|file rest IH]; intros s run w.
  - exists s, [], w, []. rewrite !app_nil_r. simpl.
    repeat split; try reflexivity; try lia. constructor.
  - destruct (processFile_step prompt0 handle file s run w)
      as (s1 & recs1 & w1 & c & Hstep & Hc & Htr1 & Hreq1 & Herr1 & Hrec1
          & Hg1 & Hr1 & Hk1 & Ho1).
    destruct (IH s1 (run ++ recs1) w1)
      as (s2 & recs2 & w2 & outcomes & Hrest & Hfiles & Htr2 & Hreq2 & Herr2
          & Hrec2 & Hg2 & Hr2 & Hk2 & Ho2).
    exists s2, (recs1 ++ recs2), w2, ((file, c) :: outcomes).
    split.
    { cbn [App.forFiles]. unfold bind at 1. rewrite Hstep, Hrest.
      rewrite <- List.app_assoc. reflexivity. }
    split; [simpl; rewrite Hfiles; reflexivity|].
    split.
    { rewrite Htr2, Htr1. unfold events_of. simpl.
      rewrite <- List.app_assoc. reflexivity. }
    split; [simpl; lia|].
    split.
    { rewrite Herr2, Herr1. cbn [omap list_omap].
      destruct (failure_message (file, c)); reflexivity. }
    split.
    { cbn [omap list_omap].
      destruct (success_url (file, c)) as [[f u]|].
      - destruct Hrec1 as (t & ->). simpl. constructor; [|exact Hrec2].
        exists t. reflexivity.
      - rewrite Hrec1. exact Hrec2. }
    split; [congruence|]. split; [congruence|].
    cbn [existsb]. unfold mentions_key at 1 3. cbn [snd].
    rewrite Hk2, Ho2, Hk1, Ho1.
    destruct c as [v|e]; simpl;
      [|destruct (message_mentions e "API Key" "API key"); simpl];
      destruct (existsb mentions_key outcomes); split; reflexivity.
Qed.

(** A batch that passes the gate. *)
Lemma handleGenerate_run (s : App.State) (w : World) :
  App.hasApiKey s = true ->
  App.uploadedFiles s <> [] ->
  App.trim_is_empty (App.prompt s) = false ->
  exists s' recs w' outcomes,
    App.handleGenerate env edit s w = (Normal s', w') /\
    List.map fst outcomes = App.uploadedFiles s /\
    trace w' = trace w ++ events_of outcomes /\
    (List.length (requests w')
     <= List.length (requests w) + List.length (App.uploadedFiles s))%nat /\
    App.error s'
    = match omap failure_message outcomes with
      | [] => None
      | msgs => Some (join LF msgs)
      end /\
    App.generatedImages s' = recs ++ App.generatedImages s /\
    Forall2 (built_from (App.prompt s)) recs (omap success_url outcomes) /\
    App.isLoading s' = false /\
    App.hasApiKey s' = negb (existsb mentions_key outcomes) /\
    App.isSettingsOpen s'
    = (existsb mentions_key outcomes || App.isSettingsOpen s).
Proof.
  intros Hkey Hfiles Hprompt.
  unfold App.handleGenerate. rewrite Hkey, Hprompt. cbn [negb].
  destruct (App.uploadedFiles s) as [|f files] eqn:Hup; [congruence|].
  cbn [List.length Nat.eqb].
  destruct (forFiles_run (App.prompt s) (App.directoryHandle s) (f :: files)
              (App.setError (fun _ => None) (App.setIsLoading true s)) [] w)
    as (s2 & recs & w2 & outcomes & Hrun & Hmap & Htr & Hreq & Herr & Hrec
        & Hg & Hr & Hk & Ho).
  unfold bind. rewrite Hrun. cbn [app].
  exists (App.setIsLoading false
            (App.setGeneratedImages (fun prev => recs ++ prev) s2)),
    recs, w2, outcomes.
  split; [reflexivity|]. split; [exact Hmap|]. split; [exact Htr|].
  split; [exact Hreq|].
  split.
  { cbn [App.error App.setIsLoading App.setGeneratedImages].
    rewrite Herr. cbn [App.error App.setError].
    rewrite fold_appendError by apply failure_message_truthy.
    destruct (omap failure_message outcomes); reflexivity. }
  split.
  { cbn [App.generatedImages App.setIsLoading App.setGeneratedImages].
    rewrite Hg. reflexivity. }
  split; [exact Hrec|]. split; [reflexivity|].
  cbn [App.hasApiKey App.isSettingsOpen App.setIsLoading
         App.setGeneratedImages].
  rewrite Hk, Ho.
  cbn [App.hasApiKey App.isSettingsOpen App.setIsLoading App.setError].
  rewrite Hkey.
  destruct (existsb mentions_key outcomes); split; reflexivity.
Qed.

End Loop.

(** C4, as stated, fails on the number of lines: one failed file can
    contribute several.  With the quota-aware client a quota failure of the
    only file gives a five-line error text; with the client under
    [src/services] a two-line message of the service gives two lines. *)
Lemma handleGenerate_failure_text_spans_lines :
  (let env := Sample.env_rejecting "429 RESOURCE_EXHAUSTED: quota exceeded" in
   exists s' text,
     fst (App.handleGenerate env (editOf env (QuotaAware "gemini-2.5-flash-image"))
            (Sample.ready [Sample.a_png]) Sample.world_with_key)
     = Normal s' /\
     App.error s' = Some text /\
     count_lines text = 5 /\
     List.length (App.uploadedFiles (Sample.ready [Sample.a_png])) = 1) /\
  (let env := Sample.env_rejecting ("first line" +:+ LF +:+ "second line") in
   exists s' text,
     fst (App.handleGenerate env (editOf env SrcRevision)
            (Sample.ready [Sample.a_png]) Sample.world_with_key)
     = Normal s' /\
     App.error s' = Some text /\
     count_lines text = 2 /\
     List.length (App.uploadedFiles (Sample.ready [Sample.a_png])) = 1).
Proof.
  split; eexists _, _; (split; [vm_compute; reflexivity|]);
    (split; [reflexivity|]); split; vm_compute; reflexivity.
Qed.

(** C4, amended.  A batch of N files that passes the gate awaits exactly N
    edit calls, one per file in upload order and each settled before the
    next starts, issues at most N remote requests, and ends with an error
    text that is the line-feed join of one message per failed file, in
    upload order (no text at all when no file failed); a message may itself
    span several lines. *)
Theorem handleGenerate_one_message_per_failed_file (env : Env)
  (client : Client) (s : App.State) (w : World) :
  App.hasApiKey s = true ->
  App.uploadedFiles s <> [] ->
  App.trim_is_empty (App.prompt s) = false ->
  exists s' w' outcomes,
    App.handleGenerate env (editOf env client) s w = (Normal s', w') /\
    List.map fst outcomes = App.uploadedFiles s /\
    trace w' = trace w ++ events_of outcomes /\
    (List.length (requests w')
     <= List.length (requests w) + List.length (App.uploadedFiles s))%nat /\
    App.error s'
    = match omap failure_message outcomes with
      | [] => None
      | msgs => Some (join LF msgs)
      end.
Proof.
  intros Hkey Hfiles Hprompt.
  destruct (handleGenerate_run env (editOf env client) (editOf_frame env client)
              s w Hkey Hfiles Hprompt)
    as (s' & recs & w' & outcomes & Hrun & Hmap & Htr & Hreq & Herr & _).
  exists s', w', outcomes. repeat split; assumption.
Qed.

Lemma handleGenerate_one_message_per_failed_file_witness :
  exists s' w' outcomes,
    App.handleGenerate (Sample.env_rejecting "boom")
      (editOf (Sample.env_rejecting "boom") SrcRevision)
      (Sample.ready [Sample.a_png; Sample.b_png]) Sample.world_with_key
    = (Normal s', w') /\
    List.map fst outcomes = [Sample.a_png; Sample.b_png] /\
    trace w' = [] ++ events_of outcomes /\
    (List.length (requests w') <= 0 + 2)%nat /\
    App.error s'
    = match omap failure_message outcomes with
      | [] => None
      | msgs => Some (join LF msgs)
      end.
Proof.
  exact (handleGenerate_one_message_per_failed_file
           (Sample.env_rejecting "boom") SrcRevision
           (Sample.ready [Sample.a_png; Sample.b_png])
           Sample.world_with_key
           eq_refl ltac:(discriminate) eq_refl).
Defined.

Example handleGenerate_two_failures_text :
  let env := Sample.env_rejecting "boom" in
  exists s',
    fst (App.handleGenerate env (editOf env SrcRevision)
           (Sample.ready [Sample.a_png; Sample.b_png])
           Sample.world_with_key)
    = Normal s' /\
    App.error s'
    = Some ("Lỗi khi xử lý ảnh a.png: boom" +:+ LF +:+
            "Lỗi khi xử lý ảnh b.png: boom").
Proof. eexists. split; vm_compute; reflexivity. Qed.

(** C5, as stated, fails inside a batch: records are pushed onto the end of
    the accumulator, so two successes of one batch appear in upload order,
    the first file's record first. *)
Lemma handleGenerate_batch_in_upload_order :
  let env := Sample.env_image in
  exists s',
    fst (App.handleGenerate env (editOf env SrcRevision)
           (Sample.ready [Sample.a_png; Sample.b_png])
           Sample.world_with_key)
    = Normal s' /\
    List.map Types.id (App.generatedImages s')
    = ["a.png-1700000000000"; "b.png-1700000000001"] /\
    List.map Types.originalFileName (App.generatedImages s')
    <> ["b.png"; "a.png"].
Proof.
  eexists. split; [vm_compute; reflexivity|].
  split; [reflexivity|]. vm_compute. discriminate.
Qed.

(** C5, amended.  A batch that passes the gate puts its new records in front
    of the gallery that was there: the gallery becomes the records of the
    successful edit calls, in upload order, each built from its file, its
    URL and the batch prompt, followed by the previous gallery.  Batches are
    therefore newest first, while the records of one batch keep the order of
    the uploads. *)
Theorem handleGenerate_prepends_batch (env : Env) (client : Client)
  (s : App.State) (w : World) :
  App.hasApiKey s = true ->
  App.uploadedFiles s <> [] ->
  App.trim_is_empty (App.prompt s) = false ->
  exists s' w' outcomes recs,
    App.handleGenerate env (editOf env client) s w = (Normal s', w') /\
    List.map fst outcomes = App.uploadedFiles s /\
    trace w' = trace w ++ events_of outcomes /\
    App.generatedImages s' = recs ++ App.generatedImages s /\
    Forall2 (built_from (App.prompt s)) recs (omap success_url outcomes).
Proof.
  intros Hkey Hfiles Hprompt.
  destruct (handleGenerate_run env (editOf env client) (editOf_frame env client)
              s w Hkey Hfiles Hprompt)
    as (s' & recs & w' & outcomes & Hrun & Hmap & Htr & _ & _ & Hgal & Hrec & _).
  exists s', w', outcomes, recs. repeat split; assumption.
Qed.

Lemma handleGenerate_prepends_batch_witness :
  exists s' w' outcomes recs,
    App.handleGenerate Sample.env_image (editOf Sample.env_image SrcRevision)
      (App.setGeneratedImages (fun _ => [Sample.image "old-1"])
         (Sample.ready [Sample.a_png; Sample.b_png]))
      Sample.world_with_key
    = (Normal s', w') /\
    List.map fst outcomes = [Sample.a_png; Sample.b_png] /\
    trace w' = [] ++ events_of outcomes /\
    App.generatedImages s' = recs ++ [Sample.image "old-1"] /\
    Forall2 (built_from "make it blue") recs (omap success_url outcomes).
Proof.
  exact (handleGenerate_prepends_batch Sample.env_image SrcRevision
           (App.setGeneratedImages (fun _ => [Sample.image "old-1"])
              (Sample.ready [Sample.a_png; Sample.b_png]))
           Sample.world_with_key
           eq_refl ltac:(discriminate) eq_refl).
Defined.

(* ===================================================================== *)
(** ** [handleGenerate]: credential and quota failures *)
(* ===================================================================== *)

(** The two messages the quota-aware client throws for credential and for
    quota failures both contain [API Key], the needle of [handleGenerate]. *)
Lemma thrown_messages_mention_key (f : FileWithPreview) :
  mentions_key (f, Throw (new_Error msg_credential)) = true /\
  mentions_key (f, Throw (new_Error msg_quota)) = true /\
  mentions_key (f, Throw (new_Error msg_policy)) = false /\
  mentions_key (f, Throw (new_Error msg_encode)) = false.
Proof. repeat split; vm_compute; reflexivity. Qed.

(** X7.  How the quota-aware client rethrows a rejected request: the billing
    message for a quota marker, else the credential message for a credential
    marker, else the message of the service. *)
Lemma quota_aware_rejection (env : Env) (model : string)
  (file : FileWithPreview) (prompt0 : string) (w : World)
  (key base64Image : string) (e : Error) :
  localStorage w !! "geminiApiKey" = Some key ->
  truthy key = true ->
  fileToBase64 env file = Some base64Image ->
  truthy base64Image = true ->
  remote env (List.length (requests w))
    (ImageEditRequest key model base64Image (Types.type file) prompt0)
  = Rejected e ->
  fst (GeminiService.editImageWithPrompt env file prompt0 model w)
  = Throw
      (new_Error
         (if message_mentions e "RESOURCE_EXHAUSTED" needle_code_429
          then msg_quota
          else if message_mentions e "API_KEY_INVALID" "permission"
               then msg_credential
               else match message e with
                    | Some m => if truthy m then m else msg_unknown
                    | None => msg_unknown
                    end)).
Proof.
  intros Hkey Hk Hb64 Hb Hremote.
  unfold GeminiService.editImageWithPrompt, GeminiService.getApiKey, getItem,
    bind.
  rewrite Hkey, Hk, Hb64, Hb. cbn [negb].
  unfold try_catch, bind, generateContent. rewrite Hremote.
  cbn [console_error modify].
  destruct (message_mentions e "RESOURCE_EXHAUSTED" needle_code_429);
    [reflexivity|].
  destruct (message_mentions e "API_KEY_INVALID" "permission"); reflexivity.
Qed.

(** C2.  One uploaded file, a stored key, and the service [src/App.tsx] is
    linked with.  When the edit request is rejected with a quota error, the
    client rethrows the error as it came: [handleGenerate] reports the
    service's own text, which is not the billing message and carries no
    guidance, and the key flag and the settings panel stay as they were.
    When the request is rejected with a credential error, the credential
    message is reported, the key flag is cleared and the settings panel
    opened. *)
Theorem handleGenerate_quota_failure_without_guidance :
  let quota := Sample.env_rejecting "429 RESOURCE_EXHAUSTED: quota exceeded" in
  let denied := Sample.env_rejecting "400 API_KEY_INVALID: key not valid" in
  let s := Sample.ready [Sample.a_png] in
  App.hasApiKey s = true /\
  App.isSettingsOpen s = false /\
  (exists s',
      fst (App.handleGenerate quota (editOf quota SrcRevision) s
             Sample.world_with_key)
      = Normal s' /\
      App.error s'
      = Some "Lỗi khi xử lý ảnh a.png: 429 RESOURCE_EXHAUSTED: quota exceeded" /\
      App.error s' <> Some (App.msg_failed Sample.a_png (new_Error msg_quota)) /\
      includes "Lỗi khi xử lý ảnh a.png: 429 RESOURCE_EXHAUSTED: quota exceeded"
        "billing" = false /\
      includes msg_quota "billing" = true /\
      App.hasApiKey s' = true /\
      App.isSettingsOpen s' = false) /\
  (exists s',
      fst (App.handleGenerate denied (editOf denied SrcRevision) s
             Sample.world_with_key)
      = Normal s' /\
      App.error s'
      = Some (App.msg_failed Sample.a_png (new_Error msg_credential)) /\
      App.hasApiKey s' = false /\
      App.isSettingsOpen s' = true).
Proof.
  cbv zeta. split; [reflexivity|]. split; [reflexivity|]. split.
  - eexists. split; [vm_compute; reflexivity|].
    split; [vm_compute; reflexivity|].
    split; [vm_compute; discriminate|].
    repeat split; vm_compute; reflexivity.
  - eexists. split; [vm_compute; reflexivity|].
    repeat split; vm_compute; reflexivity.
Qed.

(* ===================================================================== *)
(** ** [fileToBase64] and the upload previews *)
(* ===================================================================== *)

Lemma append_cons (c : ascii) (a b : string) :
  String c a +:+ b = String c (a +:+ b).
Proof. reflexivity. Qed.

Lemma includes_comma_cons (c : ascii) (rest : string) :
  includes (String c rest) "," = Ascii.eqb c ","%char || includes rest ",".
Proof.
  cbn [includes String.prefix].
  destruct (ascii_dec ","%char c) as [<-|Hne].
  - destruct rest; reflexivity.
  - destruct (Ascii.eqb_spec c ","%char) as [->|_]; [congruence|reflexivity].
Qed.

Lemma includes_comma_app (a b : string) :
  includes (a +:+ b) "," = includes a "," || includes b ",".
Proof.
  induction a as [|c a IH].
  - change (EmptyString +:+ b) with b. reflexivity.
  - rewrite append_cons, !includes_comma_cons, IH, orb_assoc. reflexivity.
Qed.

Lemma after_comma_skip (a b : string) :
  includes a "," = false -> after_comma (a +:+ b) = after_comma b.
Proof.
  induction a as [|c a IH]; intros Hno; [reflexivity|].
  rewrite includes_comma_cons in Hno. apply orb_false_iff in Hno as [Hc Ha].
  rewrite append_cons. cbn [after_comma]. rewrite Hc. apply IH, Ha.
Qed.

Lemma after_comma_None (s : string) :
  after_comma s = None <-> includes s "," = false.
Proof.
  induction s as [|c s IH]; [split; reflexivity|].
  rewrite includes_comma_cons. cbn [after_comma].
  destruct (Ascii.eqb c ","%char); simpl; [split; discriminate|exact IH].
Qed.

Lemma upto_comma_id (s : string) :
  includes s "," = false -> upto_comma s = s.
Proof.
  induction s as [|c s IH]; intros Hno; [reflexivity|].
  rewrite includes_comma_cons in Hno. apply orb_false_iff in Hno as [Hc Hs].
  cbn [upto_comma]. rewrite Hc, (IH Hs). reflexivity.
Qed.

Lemma upto_comma_clean (s : string) : includes (upto_comma s) "," = false.
Proof.
  induction s as [|c s IH]; [reflexivity|].
  cbn [upto_comma]. destruct (Ascii.eqb c ","%char) eqn:Hc; [reflexivity|].
  rewrite includes_comma_cons, Hc, IH. reflexivity.
Qed.

(** X1.  When the reader yields the data URL of a comma-free MIME type and
    a comma-free payload, [fileToBase64] returns exactly the payload; and
    when the payload is non-empty and the MIME type is the file's [type],
    the preview [handleFileChange] builds is the reader's data URL again. *)
Theorem fileToBase64_round_trip (env : Env) (file : File)
  (mime payload : string) :
  readAsDataURL env file
  = Some ("data:" +:+ mime +:+ ";base64," +:+ payload) ->
  includes mime "," = false ->
  includes payload "," = false ->
  fileToBase64 env file = Some payload /\
  (payload <> EmptyString -> mime = Types.type file ->
   App.withPreview env file
   = Some {| Types.file := file;
             Types.preview := "data:" +:+ mime +:+ ";base64," +:+ payload |}).
Proof.
  intros Hread Hmime Hpayload.
  assert (Hb64 : fileToBase64 env file = Some payload).
  { unfold fileToBase64, split_comma_1. rewrite Hread.
    replace ("data:" +:+ mime +:+ ";base64," +:+ payload)
      with (("data:" +:+ mime +:+ ";base64") +:+ ("," +:+ payload))
      by (rewrite !string_app_assoc; reflexivity).
    rewrite after_comma_skip.
    - change (Some (upto_comma payload) = Some payload).
      rewrite (upto_comma_id payload Hpayload). reflexivity.
    - rewrite !includes_comma_app, Hmime. reflexivity. }
  split; [exact Hb64|].
  intros Hne ->. unfold App.withPreview. rewrite Hb64.
  destruct payload; [congruence|reflexivity].
Qed.

Lemma fileToBase64_round_trip_witness :
  fileToBase64 Sample.env_image Sample.a_png = Some "AAAA" /\
  App.withPreview Sample.env_image Sample.a_png = Some Sample.a_png.
Proof.
  destruct (fileToBase64_round_trip Sample.env_image Sample.a_png
              "image/png" "AAAA" eq_refl eq_refl eq_refl) as [Hb64 Hpreview].
  split; [exact Hb64|].
  exact (Hpreview ltac:(discriminate) eq_refl).
Defined.

(** X2.  [fileToBase64] never rejects: it gives [null]/[undefined] exactly
    when the read failed or the reader's text has no comma, and what it
    returns never contains a comma (the text is cut at the second one). *)
Theorem fileToBase64_absent_or_comma_free (env : Env) (file : File) :
  (fileToBase64 env file = None <->
   readAsDataURL env file = None \/
   exists result,
     readAsDataURL env file = Some result /\ includes result "," = false) /\
  (forall base64,
      fileToBase64 env file = Some base64 -> includes base64 "," = false).
Proof.
  unfold fileToBase64, split_comma_1.
  destruct (readAsDataURL env file) as [result|].
  - destruct (after_comma result) as [rest|] eqn:Hafter.
    + split.
      * split; [discriminate|].
        intros [H|(r & [= <-] & Hno)]; [discriminate|].
        apply after_comma_None in Hno. congruence.
      * intros base64 [= <-]. apply upto_comma_clean.
    + split; [|discriminate].
      split; [|reflexivity]. intros _. right. exists result.
      split; [reflexivity|]. apply after_comma_None, Hafter.
  - split; [|discriminate]. split; [left; reflexivity|reflexivity].
Qed.

(* ===================================================================== *)
(** ** The key store *)
(* ===================================================================== *)

(** X3.  [getModel] reads back what [saveModel] stored, except that an
    empty model name reads as the default model; without a stored entry it
    is the default too; and [getModel] itself changes nothing. *)
Theorem getModel_after_saveModel (model : string) (w : World) :
  fst (GeminiService.getModel (snd (GeminiService.saveModel model w)))
  = Normal (if truthy model then model else "gemini-2.5-flash-image") /\
  (localStorage w !! "geminiModel" = None ->
   fst (GeminiService.getModel w) = Normal "gemini-2.5-flash-image") /\
  snd (GeminiService.getModel w) = w.
Proof.
  unfold GeminiService.getModel, GeminiService.saveModel, setItem, modify,
    bind, getItem, ret.
  cbn [fst snd localStorage with_localStorage].
  rewrite lookup_insert_eq. split; [reflexivity|].
  split; [intros ->; reflexivity|].
  destruct (localStorage w !! "geminiModel"); reflexivity.
Qed.

(** X4.  The key and the model are stored under different entries:
    [saveApiKey] is read back by [getApiKey] and leaves the model and the
    gallery entry alone, and [saveModel] leaves the key alone. *)
Theorem saveApiKey_round_trip_and_isolation (apiKey model : string) (w : World) :
  let w1 := snd (GeminiService.saveApiKey apiKey w) in
  let w2 := snd (GeminiService.saveModel model w) in
  fst (GeminiService.getApiKey w1) = Normal (Some apiKey) /\
  fst (GeminiService.getModel w1) = fst (GeminiService.getModel w) /\
  localStorage w1 !! "generatedImages" = localStorage w !! "generatedImages" /\
  fst (GeminiService.getApiKey w2) = fst (GeminiService.getApiKey w) /\
  SrcGeminiService.saveApiKey apiKey w = GeminiService.saveApiKey apiKey w.
Proof.
  unfold GeminiService.getModel, GeminiService.saveModel,
    GeminiService.getApiKey, GeminiService.saveApiKey,
    SrcGeminiService.saveApiKey, setItem, modify, bind, getItem, ret.
  cbn [fst snd localStorage with_localStorage].
  rewrite lookup_insert_eq.
  rewrite !lookup_insert_ne by discriminate.
  repeat split.
Qed.

(* ===================================================================== *)
(** ** The edit client: refusals and rethrown errors *)
(* ===================================================================== *)

Lemma editOf_no_key (env : Env) (client : Client) (file : FileWithPreview)
  (prompt0 : string) (w : World) :
  truthy_opt (localStorage w !! "geminiApiKey") = false ->
  editOf env client file prompt0 w = (Throw (new_Error msg_no_key), w).
Proof.
  intros Hkey.
  destruct client as [model|];
    unfold editOf, GeminiService.editImageWithPrompt,
      SrcGeminiService.editImageWithPrompt,
      GeminiService.getApiKey, SrcGeminiService.getApiKey, getItem, bind;
    (destruct (localStorage w !! "geminiApiKey") as [key|];
     [simpl in Hkey; rewrite Hkey|]; reflexivity).
Qed.

Lemma editOf_unreadable (env : Env) (client : Client) (file : FileWithPreview)
  (prompt0 : string) (w : World) :
  truthy_opt (localStorage w !! "geminiApiKey") = true ->
  truthy_opt (fileToBase64 env file) = false ->
  editOf env client file prompt0 w = (Throw (new_Error msg_encode), w).
Proof.
  intros Hkey Hfile.
  destruct client as [model|];
    unfold editOf, GeminiService.editImageWithPrompt,
      SrcGeminiService.editImageWithPrompt,
      GeminiService.getApiKey, SrcGeminiService.getApiKey, getItem, bind;
    (destruct (localStorage w !! "geminiApiKey") as [key|];
     [simpl in Hkey; rewrite Hkey|discriminate]);
    (destruct (fileToBase64 env file) as [b|];
     [simpl in Hfile; rewrite Hfile|]; reflexivity).
Qed.

(** X5.  Without a usable stored key both revisions of
    [editImageWithPrompt] throw the configuration error, and with a key but
    an unreadable file they throw the encoding error; in both cases the
    world is exactly as before, so no request was sent and nothing was
    logged. *)
Theorem editImageWithPrompt_refuses_locally (env : Env) (client : Client)
  (file : FileWithPreview) (prompt0 : string) (w : World) :
  (truthy_opt (localStorage w !! "geminiApiKey") = false ->
   editOf env client file prompt0 w = (Throw (new_Error msg_no_key), w)) /\
  (truthy_opt (localStorage w !! "geminiApiKey") = true ->
   truthy_opt (fileToBase64 env file) = false ->
   editOf env client file prompt0 w = (Throw (new_Error msg_encode), w)).
Proof.
  split; [apply editOf_no_key|apply editOf_unreadable].
Qed.

Lemma prefix_app (a x : string) : String.prefix a (a +:+ x) = true.
Proof.
  induction a as [|c a IH].
  - destruct x; reflexivity.
  - rewrite append_cons. cbn [String.prefix].
    destruct (ascii_dec c c); [exact IH|congruence].
Qed.

Lemma dataUrl_prefix (b : Blob) : String.prefix "data:" (dataUrl b) = true.
Proof. apply prefix_app. Qed.

Lemma scanParts_data (ps : list Part) (u : string) :
  scanParts ps = Some u -> String.prefix "data:" u = true.
Proof.
  induction ps as [|p ps IH]; simpl; [discriminate|].
  destruct (inlineData p) as [b|]; [|exact IH].
  intros [= <-]. apply dataUrl_prefix.
Qed.

Lemma readResponse_data (r : GenerateContentResponse) (w : World) (u : string) :
  fst (readResponse r w) = Normal (Some u) -> String.prefix "data:" u = true.
Proof.
  unfold readResponse, policyBlocked, bind, console_error, modify, throw, ret.
  repeat case_match; simpl; try discriminate.
  intros [= Hscan]. eapply scanParts_data, Hscan.
Qed.

(** X6.  Whenever [editImageWithPrompt] (either revision) resolves with a
    URL, the URL starts with [data:]; in particular it is never the empty
    string, so [handleGenerate] builds a record for every non-null result. *)
Theorem editImageWithPrompt_resolves_with_data_url (env : Env) (client : Client)
  (file : FileWithPreview) (prompt0 : string) (w : World) (u : string) :
  fst (editOf env client file prompt0 w) = Normal (Some u) ->
  String.prefix "data:" u = true /\ truthy u = true.
Proof.
  intros Hres.
  assert (Hprefix : String.prefix "data:" u = true).
  { revert Hres.
    destruct client as [model|];
      unfold editOf, GeminiService.editImageWithPrompt,
        SrcGeminiService.editImageWithPrompt,
        GeminiService.getApiKey, SrcGeminiService.getApiKey, getItem, bind,
        try_catch, generateContent, throw;
      repeat (case_match; simpl; try discriminate);
      subst;
      try match goal with
        | H : readResponse ?r ?w0 = (Normal ?v, _) |- Normal ?v = Normal _ -> _ =>
            intros [= ->];
            apply (readResponse_data r w0); rewrite H; reflexivity
        end. }
  split; [exact Hprefix|].
  destruct u; [discriminate|reflexivity].
Qed.

Lemma editImageWithPrompt_resolves_with_data_url_witness :
  String.prefix "data:" "data:image/png;base64,BBBB" = true /\
  truthy "data:image/png;base64,BBBB" = true.
Proof.
  apply (editImageWithPrompt_resolves_with_data_url Sample.env_image
           SrcRevision Sample.a_png "make it blue" Sample.world_with_key).
  vm_compute. reflexivity.
Defined.

Lemma quota_aware_rejection_witness :
  fst (GeminiService.editImageWithPrompt
         (Sample.env_rejecting "403 permission denied, also RESOURCE_EXHAUSTED")
         Sample.a_png "make it blue" "gemini-2.5-flash-image"
         Sample.world_with_key)
  = Throw (new_Error msg_quota).
Proof.
  assert (Hkey : localStorage Sample.world_with_key !! "geminiApiKey" = Some "k")
    by (vm_compute; reflexivity).
  exact (quota_aware_rejection
           (Sample.env_rejecting "403 permission denied, also RESOURCE_EXHAUSTED")
           "gemini-2.5-flash-image" Sample.a_png "make it blue"
           Sample.world_with_key "k" "AAAA"
           (mkError (Some "403 permission denied, also RESOURCE_EXHAUSTED"))
           Hkey eq_refl eq_refl eq_refl eq_refl).
Defined.

(** X8.  The revision under [src/services] rethrows a rejected request as
    the credential error when its message carries a credential marker, and
    otherwise rethrows the very error it caught, whatever its message
    (a quota error included, an error without message included). *)
Theorem src_rejection_rethrown (env : Env) (file : FileWithPreview)
  (prompt0 : string) (w : World) (key base64Image : string) (e : Error) :
  localStorage w !! "geminiApiKey" = Some key ->
  truthy key = true ->
  fileToBase64 env file = Some base64Image ->
  truthy base64Image = true ->
  remote env (List.length (requests w))
    (ImageEditRequest key "gemini-2.5-flash-image" base64Image
       (Types.type file) prompt0)
  = Rejected e ->
  fst (SrcGeminiService.editImageWithPrompt env file prompt0 w)
  = Throw (if message_mentions e "API_KEY_INVALID" "permission"
           then new_Error msg_credential
           else e) /\
  requests (snd (SrcGeminiService.editImageWithPrompt env file prompt0 w))
  = requests w ++
      [ImageEditRequest key "gemini-2.5-flash-image" base64Image
         (Types.type file) prompt0].
Proof.
  intros Hkey Hk Hb64 Hb Hremote.
  unfold SrcGeminiService.editImageWithPrompt, SrcGeminiService.getApiKey,
    getItem, bind.
  rewrite Hkey, Hk, Hb64, Hb. cbn [negb].
  unfold try_catch, bind, generateContent. rewrite Hremote.
  cbn [console_error modify].
  destruct (message_mentions e "API_KEY_INVALID" "permission");
    split; reflexivity.
Qed.

Lemma src_rejection_rethrown_witness :
  fst (SrcGeminiService.editImageWithPrompt
         (Sample.env_with (Rejected (mkError None)))
         Sample.a_png "make it blue" Sample.world_with_key)
  = Throw (mkError None).
Proof.
  assert (Hkey : localStorage Sample.world_with_key !! "geminiApiKey" = Some "k")
    by (vm_compute; reflexivity).
  exact (proj1 (src_rejection_rethrown
                  (Sample.env_with (Rejected (mkError None)))
                  Sample.a_png "make it blue" Sample.world_with_key "k" "AAAA"
                  (mkError None) Hkey eq_refl eq_refl eq_refl eq_refl)).
Defined.

(** X9.  Every error the quota-aware [editImageWithPrompt] throws carries a
    non-empty message string, whatever the service did: the error text of
    [handleGenerate] never shows [undefined] for this client. *)
Theorem quota_aware_errors_have_messages (env : Env) (file : FileWithPreview)
  (prompt0 model : string) (w : World) (e : Error) :
  fst (GeminiService.editImageWithPrompt env file prompt0 model w) = Throw e ->
  exists m, message e = Some m /\ truthy m = true.
Proof.
  unfold GeminiService.editImageWithPrompt, GeminiService.getApiKey, getItem,
    bind, try_catch, generateContent, throw, console_error, modify.
  repeat (case_match; simpl; try discriminate);
    intros [= <-]; eexists; (split; [reflexivity|]);
    try reflexivity; assumption.
Qed.

Lemma quota_aware_errors_have_messages_witness :
  exists m, message (new_Error msg_no_key) = Some m /\ truthy m = true.
Proof.
  apply (quota_aware_errors_have_messages (Sample.env_rejecting "unused")
           Sample.a_png "make it blue" "gemini-2.5-flash-image"
           (Sample.world_of ∅)).
  vm_compute. reflexivity.
Defined.

(* ===================================================================== *)
(** ** [validateApiKey] and [handleSaveApiKey] *)
(* ===================================================================== *)

(** Both validators complete with a verdict, send at most the one probe, and
    leave storage, alerts and saved files alone. *)
Lemma validateOf_frame (env : Env) (client : Client) (apiKey : string)
  (w : World) :
  exists verdict w',
    validateOf env client apiKey w = (Normal verdict, w') /\
    localStorage w' = localStorage w /\
    alerts w' = alerts w /\
    saved w' = saved w /\
    (List.length (requests w') <= S (List.length (requests w)))%nat /\
    (apiKey = EmptyString -> verdict = false /\ w' = w).
Proof.
  destruct client as [model|];
    unfold validateOf, GeminiService.validateApiKey,
      SrcGeminiService.validateApiKey, try_catch, bind, generateContent,
      console_error, modify, ret;
    (destruct apiKey as [|c rest]; cbn [truthy negb];
     [eexists _, _; repeat split; lia|]);
    repeat case_match; simplify_eq;
    eexists _, _; (split; [reflexivity|]); simpl;
    rewrite ?length_app; simpl;
    repeat split; try lia; discriminate.
Qed.

(** X10.  [validateApiKey] (either revision) never throws: it always
    answers with a verdict, the empty key gets [false] with the world
    untouched, any key costs at most one request, and validation by itself
    never writes to storage and never alerts. *)
Theorem validateApiKey_never_throws (env : Env) (client : Client)
  (apiKey : string) (w : World) :
  exists verdict w',
    validateOf env client apiKey w = (Normal verdict, w') /\
    localStorage w' = localStorage w /\
    alerts w' = alerts w /\
    (List.length (requests w') <= S (List.length (requests w)))%nat /\
    (apiKey = EmptyString -> verdict = false /\ w' = w).
Proof.
  destruct (validateOf_frame env client apiKey w)
    as (verdict & w' & Hrun & Hls & Hal & _ & Hreq & Hempty).
  exists verdict, w'. repeat split; try assumption; apply Hempty; assumption.
Qed.

(** X11.  [handleSaveApiKey] stores the typed key exactly when the
    validator says it is valid.  On a valid key the key is written to
    storage, the key flag is set, the settings panel closes and one success
    alert is shown; on an invalid key storage and the session state are
    left as they were and the inline error is set, with no alert.  Either
    way the validating indicator is off at the end. *)
Theorem handleSaveApiKey_stores_iff_valid (env : Env) (client : Client)
  (s : App.State) (form : App.KeyForm) (w : World) :
  exists verdict s' form' w',
    fst (validateOf env client (App.apiKeyInput s) w) = Normal verdict /\
    App.handleSaveApiKey (validateOf env client) (s, form) w
    = (Normal (s', form'), w') /\
    App.isKeyValidating form' = false /\
    (verdict = true ->
     localStorage w'
     = <["geminiApiKey" := App.apiKeyInput s]> (localStorage w) /\
     App.hasApiKey s' = true /\
     App.isSettingsOpen s' = false /\
     App.apiKeyError form' = None /\
     alerts w' = alerts w ++ [App.msg_key_saved]) /\
    (verdict = false ->
     localStorage w' = localStorage w /\
     s' = s /\
     App.apiKeyError form' = Some App.msg_key_invalid /\
     alerts w' = alerts w).
Proof.
  destruct (validateOf_frame env client (App.apiKeyInput s) w)
    as (verdict & w1 & Hrun & Hls & Hal & _ & _ & _).
  unfold App.handleSaveApiKey, bind. cbn [fst]. rewrite Hrun.
  destruct verdict.
  - eexists true, _, _, _. split; [reflexivity|].
    split; [reflexivity|]. split; [reflexivity|].
    split; [|discriminate]. intros _.
    cbn [snd localStorage alerts with_localStorage with_alerts].
    rewrite Hls, Hal. repeat split.
  - eexists false, _, _, _. split; [reflexivity|].
    split; [reflexivity|]. split; [reflexivity|].
    split; [discriminate|]. intros _. repeat split; assumption.
Qed.

(* ===================================================================== *)
(** ** Startup *)
(* ===================================================================== *)

Lemma keyEffect_cells (env : Env) (s : App.State) (w : World) :
  exists s1 w1,
    App.keyEffect env s w = (Normal s1, w1) /\
    localStorage w1 = localStorage w /\
    alerts w1 = alerts w /\
    requests w1 = requests w /\
    App.generatedImages s1 = App.generatedImages s /\
    App.generatedImages_ref s1 = App.generatedImages_ref s /\
    App.error s1 = App.error s /\
    App.hasApiKey s1
    = (truthy_opt (localStorage w !! "geminiApiKey") || App.hasApiKey s) /\
    App.isSettingsOpen s1
    = (negb (truthy_opt (localStorage w !! "geminiApiKey"))
       || App.isSettingsOpen s) /\
    (forall k, localStorage w !! "geminiApiKey" = Some k -> truthy k = true ->
               App.apiKeyInput s1 = k).
Proof.
  unfold App.keyEffect, bind, SrcGeminiService.getApiKey, getItem, ret.
  destruct (pickerSupported env); simpl;
    (destruct (localStorage w !! "geminiApiKey") as [k|];
     [destruct (truthy k) eqn:Hk|]);
    eexists _, _; (split; [reflexivity|]); simpl; rewrite ?Hk; simpl;
    repeat split; first [congruence | intros k' Hk' Ht'; congruence].
Qed.

Lemma hydrateEffect_cells (env : Env) (s : App.State) (w : World) :
  exists s2 w2,
    App.hydrateEffect env s w = (Normal s2, w2) /\
    App.hasApiKey s2 = App.hasApiKey s /\
    App.isSettingsOpen s2 = App.isSettingsOpen s /\
    App.apiKeyInput s2 = App.apiKeyInput s /\
    App.error s2 = App.error s /\
    alerts w2 = alerts w /\
    requests w2 = requests w /\
    (forall k, k <> "generatedImages" ->
               localStorage w2 !! k = localStorage w !! k).
Proof.
  unfold App.hydrateEffect, bind, getItem, ret, console_error,
    removeItem_charged, modify.
  repeat case_match; simplify_eq; eexists _, _; (split; [reflexivity|]);
    simpl; repeat split; intros k Hk; rewrite ?lookup_delete_ne by congruence;
    reflexivity.
Qed.

Lemma persistEffect_cells (images : list GeneratedImage) (w : World) :
  alerts (snd (App.persistEffect images w)) = alerts w /\
  requests (snd (App.persistEffect images w)) = requests w /\
  (forall k, k <> "generatedImages" ->
             localStorage (snd (App.persistEffect images w)) !! k
             = localStorage w !! k).
Proof.
  rewrite persistEffect_run. cbn [snd].
  destruct (_ || _); [destruct (store_accepts _ _ _)|]; simpl;
    repeat split; intros k Hk;
    rewrite ?lookup_insert_ne by congruence; reflexivity.
Qed.

Lemma commit_cells (before after : App.State) (w : World) :
  fst (App.commit before after w) = Normal tt /\
  alerts (snd (App.commit before after w)) = alerts w /\
  requests (snd (App.commit before after w)) = requests w /\
  (forall k, k <> "generatedImages" ->
             localStorage (snd (App.commit before after w)) !! k
             = localStorage w !! k).
Proof.
  unfold App.commit.
  destruct (App.generatedImages_ref before =? App.generatedImages_ref after)%nat.
  - repeat split.
  - split; [rewrite persistEffect_run; reflexivity|].
    apply persistEffect_cells.
Qed.

(** What [mount] makes of the stored key, whatever the gallery entry is. *)
Lemma mount_key_cells (env : Env) (w : World) :
  exists s2 w2,
    App.mount env w = (Normal s2, w2) /\
    App.hasApiKey s2 = truthy_opt (localStorage w !! "geminiApiKey") /\
    App.isSettingsOpen s2 = negb (truthy_opt (localStorage w !! "geminiApiKey")) /\
    (forall k, localStorage w !! "geminiApiKey" = Some k -> truthy k = true ->
               App.apiKeyInput s2 = k) /\
    App.error s2 = None /\
    App.uploadedFiles s2 = [] /\
    localStorage w2 !! "geminiApiKey" = localStorage w !! "geminiApiKey" /\
    alerts w2 = alerts w /\
    requests w2 = requests w.
Proof.
  destruct (keyEffect_cells env App.initialState w)
    as (s1 & w1 & Hkey & Hls1 & Hal1 & Hrq1 & _ & _ & He1 & Hk1 & Ho1 & Hin1).
  destruct (hydrateEffect_cells env s1 w1)
    as (s2 & w2 & Hhyd & Hk2 & Ho2 & Hin2 & He2 & Hal2 & Hrq2 & Hls2).
  unfold App.mount, bind. rewrite Hkey, Hhyd.
  rewrite persistEffect_run.
  set (w3 := if _ || _ then _ else w2).
  assert (H3 : alerts w3 = alerts w2 /\ requests w3 = requests w2 /\
               forall k, k <> "generatedImages" ->
                         localStorage w3 !! k = localStorage w2 !! k).
  { subst w3. cbn [App.generatedImages App.initialState orb].
    destruct (truthy_opt (localStorage w2 !! "generatedImages"));
      [destruct (store_accepts _ _ _)|]; simpl;
      repeat split; intros;
      rewrite ?lookup_insert_ne by congruence; reflexivity. }
  destruct H3 as (Hal3 & Hrq3 & Hls3).
  destruct (commit_cells App.initialState s2 w3) as (Hc & Hal4 & Hrq4 & Hls4).
  destruct (App.commit App.initialState s2 w3) as [c w4].
  simpl in Hc, Hal4, Hrq4, Hls4. subst c.
  exists s2, w4. split; [reflexivity|].
  rewrite Hk2, Ho2, Hk1, Ho1, He2, He1. cbn [App.hasApiKey App.isSettingsOpen
    App.error App.initialState]. rewrite !orb_false_r.
  split; [reflexivity|]. split; [reflexivity|].
  split; [intros k Hk Ht; rewrite Hin2; apply (Hin1 k Hk Ht)|].
  split; [reflexivity|].
  split.
  { clear - Hkey Hhyd. revert Hkey Hhyd.
    unfold App.keyEffect, App.hydrateEffect, bind,
      SrcGeminiService.getApiKey, getItem, ret, console_error,
      removeItem_charged, modify.
    repeat case_match; simplify_eq; intros [= <- <-]; simpl;
      repeat case_match; simplify_eq; intros [= <- <-]; reflexivity. }
  split.
  { rewrite Hls4, Hls3, Hls2, Hls1 by discriminate. reflexivity. }
  split; congruence.
Qed.

(** X12.  A key that [handleSaveApiKey] accepted is found at the next
    start: the key is non-empty, and [mount] on the world the handler left
    (with any collaborators) sets the key flag, pre-fills the key input with
    it and keeps the settings panel closed. *)
Theorem saved_key_is_found_at_next_start (env env' : Env) (client : Client)
  (s : App.State) (form : App.KeyForm) (w : World) :
  fst (validateOf env client (App.apiKeyInput s) w) = Normal true ->
  exists s' form' w' s2 w2,
    App.handleSaveApiKey (validateOf env client) (s, form) w
    = (Normal (s', form'), w') /\
    App.apiKeyInput s <> EmptyString /\
    App.mount env' w' = (Normal s2, w2) /\
    App.hasApiKey s2 = true /\
    App.apiKeyInput s2 = App.apiKeyInput s /\
    App.isSettingsOpen s2 = false.
Proof.
  intros Hvalid.
  destruct (validateOf_frame env client (App.apiKeyInput s) w)
    as (verdict & w1 & Hrun & Hls & _ & _ & _ & Hempty).
  rewrite Hrun in Hvalid. injection Hvalid as ->.
  assert (Hne : App.apiKeyInput s <> EmptyString)
    by (intros Heq; destruct (Hempty Heq); discriminate).
  assert (Ht : truthy (App.apiKeyInput s) = true)
    by (destruct (App.apiKeyInput s); [congruence|reflexivity]).
  unfold App.handleSaveApiKey, bind. cbn [fst]. rewrite Hrun.
  cbn [SrcGeminiService.saveApiKey setItem alert modify ret].
  set (w' := with_alerts _ (with_localStorage _ w1)).
  assert (Hstored : localStorage w' !! "geminiApiKey" = Some (App.apiKeyInput s))
    by (subst w'; simpl; apply lookup_insert_eq).
  destruct (mount_key_cells env' w')
    as (s2 & w2 & Hmount & Hk & Ho & Hin & _).
  eexists _, _, w', s2, w2. split; [reflexivity|].
  split; [exact Hne|]. split; [exact Hmount|].
  rewrite Hk, Ho, Hstored. cbn [truthy_opt]. rewrite Ht.
  split; [reflexivity|]. split; [apply (Hin _ Hstored Ht)|reflexivity].
Qed.

Lemma saved_key_is_found_at_next_start_witness :
  exists s' form' w' s2 w2,
    App.handleSaveApiKey
      (validateOf Sample.env_image SrcRevision)
      (Sample.ready [],
       {| App.isKeyValidating := false; App.apiKeyError := None |})
      (Sample.world_of ∅)
    = (Normal (s', form'), w') /\
    App.apiKeyInput (Sample.ready []) <> EmptyString /\
    App.mount Sample.env_image w' = (Normal s2, w2) /\
    App.hasApiKey s2 = true /\
    App.apiKeyInput s2 = "k" /\
    App.isSettingsOpen s2 = false.
Proof.
  apply (saved_key_is_found_at_next_start Sample.env_image Sample.env_image
           SrcRevision (Sample.ready [])
           {| App.isKeyValidating := false; App.apiKeyError := None |}
           (Sample.world_of ∅)).
  vm_compute. reflexivity.
Defined.

(** X13.  On a first start (no usable key in storage) [mount] leaves the
    key flag off and opens the settings panel, sends no request and does not
    touch the key entry; a [handleGenerate] on any later state in which the
    flag is still off is refused with the missing-key message, the world
    untouched. *)
Theorem first_start_refuses_generation (env : Env)
  (edit : FileWithPreview -> string -> M (option string)) (w : World) :
  truthy_opt (localStorage w !! "geminiApiKey") = false ->
  exists s2 w2,
    App.mount env w = (Normal s2, w2) /\
    App.hasApiKey s2 = false /\
    App.isSettingsOpen s2 = true /\
    requests w2 = requests w /\
    localStorage w2 !! "geminiApiKey" = localStorage w !! "geminiApiKey" /\
    (forall s, App.hasApiKey s = false ->
               exists s3,
                 App.handleGenerate env edit s w2 = (Normal s3, w2) /\
                 App.error s3 = Some App.msg_need_key /\
                 App.isSettingsOpen s3 = true).
Proof.
  intros Hkey.
  destruct (mount_key_cells env w)
    as (s2 & w2 & Hmount & Hk & Ho & _ & _ & _ & Hls & _ & Hrq).
  exists s2, w2. rewrite Hk, Ho, Hkey.
  repeat split; try assumption.
  intros s Hs. unfold App.handleGenerate. rewrite Hs.
  eexists. repeat split.
Qed.

Lemma first_start_refuses_generation_witness :
  exists s2 w2,
    App.mount Sample.env_image (Sample.world_of ∅) = (Normal s2, w2) /\
    App.hasApiKey s2 = false /\
    App.isSettingsOpen s2 = true /\
    requests w2 = [] /\
    localStorage w2 !! "geminiApiKey"
    = localStorage (Sample.world_of ∅) !! "geminiApiKey" /\
    (forall s, App.hasApiKey s = false ->
               exists s3,
                 App.handleGenerate Sample.env_image
                   (editOf Sample.env_image SrcRevision) s w2
                 = (Normal s3, w2) /\
                 App.error s3 = Some App.msg_need_key /\
                 App.isSettingsOpen s3 = true).
Proof.
  apply (first_start_refuses_generation Sample.env_image
           (editOf Sample.env_image SrcRevision) (Sample.world_of ∅)).
  vm_compute. reflexivity.
Defined.

(** X14.  What the persistence effect wrote is what the next start reads:
    when the stored entry is the serialization of a gallery and
    [JSON.parse] inverts it, [mount] ends with that gallery on screen and
    with the entry holding that serialization again (the write of the empty
    gallery by the first run of the persistence effect is overwritten by
    the render that follows). *)
Theorem mount_restores_stored_gallery (env : Env) (w : World)
  (images : list GeneratedImage) :
  localStorage w !! "generatedImages" = Some (JSON.stringify images) ->
  JSON_parse env (JSON.stringify images) = Some images ->
  exists s2 w2,
    App.mount env w = (Normal s2, w2) /\
    App.generatedImages s2 = images /\
    localStorage w2 !! "generatedImages" = Some (JSON.stringify images) /\
    App.selectedImage s2 = None.
Proof.
  intros Hstored Hparse.
  destruct (keyEffect_cells env App.initialState w)
    as (s1 & w1 & Hkey & Hls1 & _ & _ & _ & Hr1 & _).
  assert (Hsel : App.selectedImage s1 = None).
  { revert Hkey.
    unfold App.keyEffect, bind, SrcGeminiService.getApiKey, getItem, ret.
    repeat case_match; simplify_eq; intros [= <- _]; reflexivity. }
  assert (Ht : truthy (JSON.stringify images) = true) by reflexivity.
  unfold App.mount, bind. rewrite Hkey.
  unfold App.hydrateEffect, bind, getItem, ret.
  rewrite Hls1, Hstored, Ht, Hparse.
  assert (Hstored1 : localStorage w1 !! "generatedImages"
                     = Some (JSON.stringify images))
    by (rewrite Hls1; exact Hstored).
  assert (Hlen : (String.length (JSON.stringify [])
                  <= String.length (JSON.stringify images))%nat)
    by apply length_stringify_sublist, sublist_nil_l.
  rewrite persistEffect_run.
  cbn [App.generatedImages App.initialState orb].
  rewrite Hstored1. cbn [truthy_opt]. rewrite Ht.
  rewrite (store_accepts_shorter w1 _ _ _ Hstored1 Hlen).
  rewrite commit_fresh_ref
    by (cbn [App.generatedImages_ref App.setGeneratedImages App.initialState];
        rewrite Hr1; reflexivity).
  rewrite persistEffect_run.
  cbn [App.generatedImages App.setGeneratedImages].
  rewrite (proj1 (stored_cells "generatedImages" (JSON.stringify []) w1)).
  change (truthy_opt (Some (JSON.stringify []))) with true.
  rewrite orb_true_r.
  rewrite (store_accepts_restore w1 _ _ _ Hstored1 Hlen).
  eexists _, _. split; [reflexivity|].
  cbn [App.generatedImages App.selectedImage App.setGeneratedImages].
  split; [reflexivity|]. split; [apply stored_cells|exact Hsel].
Qed.

Lemma mount_restores_stored_gallery_witness :
  exists s2 w2,
    App.mount
      (Sample.env_parsing (JSON.stringify [Sample.image "a.png-1"])
         [Sample.image "a.png-1"])
      (Sample.world_of
         {[ "generatedImages" := JSON.stringify [Sample.image "a.png-1"] ]})
    = (Normal s2, w2) /\
    App.generatedImages s2 = [Sample.image "a.png-1"] /\
    localStorage w2 !! "generatedImages"
    = Some (JSON.stringify [Sample.image "a.png-1"]) /\
    App.selectedImage s2 = None.
Proof.
  apply (mount_restores_stored_gallery
           (Sample.env_parsing (JSON.stringify [Sample.image "a.png-1"])
              [Sample.image "a.png-1"])
           (Sample.world_of
              {[ "generatedImages" := JSON.stringify [Sample.image "a.png-1"] ]})
           [Sample.image "a.png-1"]).
  - vm_compute. reflexivity.
  - vm_compute. reflexivity.
Defined.

(* ===================================================================== *)
(** ** Uploads *)
(* ===================================================================== *)

Lemma readPreviews_omap (env : Env) (files : list File)
  (acc : list FileWithPreview) :
  App.readPreviews env files acc = acc ++ omap (App.withPreview env) files.
Proof.
  revert acc. induction files as [|file rest IH]; intros acc.
  - cbn. rewrite app_nil_r. reflexivity.
  - cbn [App.readPreviews omap list_omap]. rewrite IH.
    destruct (App.withPreview env file) as [entry|]; [|reflexivity].
    rewrite <- List.app_assoc. reflexivity.
Qed.

Lemma omap_withPreview_files (env : Env) (files : list File) :
  List.map Types.file (omap (App.withPreview env) files)
  = List.filter (fun f => truthy_opt (fileToBase64 env f)) files /\
  Forall (fun entry : FileWithPreview =>
            exists base64,
              fileToBase64 env entry = Some base64 /\
              base64 <> EmptyString /\
              Types.preview entry
              = "data:" +:+ Types.type entry +:+ ";base64," +:+ base64)
    (omap (App.withPreview env) files).
Proof.
  induction files as [|file rest [IHmap IHall]]; [split; [reflexivity|constructor]|].
  cbn [omap list_omap List.filter].
  destruct (App.withPreview env file) as [entry|] eqn:Hwp;
    unfold App.withPreview in Hwp;
    destruct (fileToBase64 env file) as [base64|] eqn:Hb64; cbn [truthy_opt];
    try destruct (truthy base64) eqn:Ht; try discriminate;
    try (split; assumption).
  injection Hwp as <-.
  split; [cbn [List.map Types.file]; rewrite IHmap; reflexivity|].
  constructor; [|exact IHall].
  exists base64. cbn [Types.file Types.preview].
  split; [exact Hb64|]. split; [|reflexivity].
  intros ->. discriminate.
Qed.

(** X15.  [handleFileChange] clears the error banner and appends to the
    upload list, in selection order, exactly the selected files that
    [fileToBase64] could encode to a non-empty payload, each with the
    preview [data:<type>;base64,<payload>]; files that cannot be read are
    dropped without any message.  A [null] or empty selection only clears
    the banner.  The world and the gallery are untouched. *)
Theorem handleFileChange_appends_readable_files (env : Env)
  (files : option (list File)) (s : App.State) (w : World) :
  exists s' added,
    App.handleFileChange env files s w = (Normal s', w) /\
    App.uploadedFiles s' = App.uploadedFiles s ++ added /\
    List.map Types.file added
    = List.filter (fun f => truthy_opt (fileToBase64 env f)) (default [] files) /\
    Forall (fun entry : FileWithPreview =>
              exists base64,
                fileToBase64 env entry = Some base64 /\
                base64 <> EmptyString /\
                Types.preview entry
                = "data:" +:+ Types.type entry +:+ ";base64," +:+ base64)
      added /\
    App.error s' = None /\
    App.generatedImages s' = App.generatedImages s.
Proof.
  unfold App.handleFileChange, ret.
  destruct files as [[|file rest]|].
  - exists (App.setError (fun _ => None) s), []. cbn. rewrite app_nil_r.
    repeat split. constructor.
  - rewrite readPreviews_omap. cbn [app default].
    destruct (omap_withPreview_files env (file :: rest)) as [Hmap Hall].
    eexists _, _. split; [reflexivity|].
    cbn [App.uploadedFiles App.error App.generatedImages App.setUploadedFiles
           App.setError].
    repeat split; assumption.
  - exists (App.setError (fun _ => None) s), []. cbn. rewrite app_nil_r.
    repeat split. constructor.
Qed.

(* ===================================================================== *)
(** ** The local directory sink *)
(* ===================================================================== *)

(** X16.  [saveImageToFileSystem] never throws and never sends a request.
    It writes the file exactly when a directory was chosen, the permission
    ends up granted (at once or after the request) and the write succeeds,
    and then it shows nothing; when a directory was chosen and the file is
    not written it shows exactly one alert; without a directory it does
    nothing at all. *)
Theorem saveImageToFileSystem_saves_or_alerts_once (env : Env)
  (handle : option string) (imageDataUrl fileName : string) (w : World) :
  let permitted :=
    match queryPermission env with
    | granted => true
    | _ => match requestPermission env with granted => true | _ => false end
    end in
  let written :=
    match handle, writeFile env fileName imageDataUrl with
    | Some _, None => permitted
    | _, _ => false
    end in
  exists w',
    App.saveImageToFileSystem env handle imageDataUrl fileName w
    = (Normal tt, w') /\
    requests w' = requests w /\
    localStorage w' = localStorage w /\
    saved w'
    = (if written then saved w ++ [(fileName, imageDataUrl)] else saved w) /\
    List.length (alerts w')
    = (if written then List.length (alerts w)
       else match handle with
            | Some _ => S (List.length (alerts w))
            | None => List.length (alerts w)
            end) /\
    (handle = None -> w' = w).
Proof.
  unfold App.saveImageToFileSystem, bind, console_error, alert, modify, ret.
  destruct handle as [h|]; [|eexists; repeat split].
  destruct (queryPermission env); [|destruct (requestPermission env)..];
    destruct (writeFile env fileName imageDataUrl) as [err|];
    eexists; (split; [reflexivity|]); simpl; rewrite ?length_app; simpl;
    repeat split; try lia; discriminate.
Qed.

(* ===================================================================== *)
(** ** Keyboard and buttons *)
(* ===================================================================== *)

(** X17.  The Escape key closes one layer per press, the detail view
    before the settings panel: with a record shown the first press only
    closes the detail view, without one it closes the settings panel, two
    presses leave both closed, and no press changes the gallery; any other
    key does nothing. *)
Theorem escape_closes_one_layer_per_press (s : App.State) :
  let s1 := App.handleKeyDown "Escape" s in
  let s2 := App.handleKeyDown "Escape" s1 in
  (App.selectedImage s <> None ->
   App.selectedImage s1 = None /\
   App.isSettingsOpen s1 = App.isSettingsOpen s) /\
  (App.selectedImage s = None ->
   App.selectedImage s1 = None /\ App.isSettingsOpen s1 = false) /\
  App.selectedImage s2 = None /\
  App.isSettingsOpen s2 = false /\
  App.generatedImages s2 = App.generatedImages s /\
  App.uploadedFiles s2 = App.uploadedFiles s /\
  (forall key, key <> "Escape" -> App.handleKeyDown key s = s).
Proof.
  cbv zeta.
  assert (Hother : forall key, key <> "Escape" -> App.handleKeyDown key s = s).
  { intros key Hne. unfold App.handleKeyDown.
    apply String.eqb_neq in Hne. rewrite Hne. reflexivity. }
  destruct s as [files p gallery ref loading err sel handle picker key opened input].
  destruct sel as [img|]; destruct opened; cbn in *;
    repeat split; intros; try reflexivity; try congruence; try apply Hother;
    assumption.
Qed.

(* ===================================================================== *)
(** ** [handleGenerate]: what a batch leaves alone *)
(* ===================================================================== *)

Lemma editOf_storage (env : Env) (client : Client) (f : FileWithPreview)
  (p : string) (w : World) :
  localStorage (snd (editOf env client f p w)) = localStorage w /\
  alerts (snd (editOf env client f p w)) = alerts w /\
  saved (snd (editOf env client f p w)) = saved w.
Proof.
  destruct client as [model|];
    unfold editOf, GeminiService.editImageWithPrompt,
      SrcGeminiService.editImageWithPrompt,
      GeminiService.getApiKey, SrcGeminiService.getApiKey, getItem, bind,
      try_catch, generateContent, readResponse, policyBlocked, bind,
      console_error, modify, throw, ret;
    repeat case_match; simplify_eq; simpl; repeat split.
Qed.

Lemma saveImageToFileSystem_storage (env : Env) (handle : option string)
  (u fileName : string) (w : World) :
  localStorage (snd (App.saveImageToFileSystem env handle u fileName w))
  = localStorage w.
Proof.
  unfold App.saveImageToFileSystem, bind, console_error, alert, modify, ret.
  repeat case_match; reflexivity.
Qed.

Section LoopFrame.

Variable env : Env.
Variable edit : FileWithPreview -> string -> M (option string).

Hypothesis edit_storage :
  forall f p w, localStorage (snd (edit f p w)) = localStorage w.

(** One iteration changes neither storage nor the cells the loop does not
    own. *)
Lemma processFile_frame (prompt0 : string) (handle : option string)
  (file : FileWithPreview) (s : App.State) (run : list GeneratedImage)
  (w : World) (s' : App.State) (run' : list GeneratedImage) (w' : World) :
  App.processFile env edit prompt0 handle file (s, run) w
  = (Normal (s', run'), w') ->
  localStorage w' = localStorage w /\
  App.uploadedFiles s' = App.uploadedFiles s /\
  App.prompt s' = App.prompt s /\
  App.selectedImage s' = App.selectedImage s /\
  App.directoryHandle s' = App.directoryHandle s /\
  App.isLoading s' = App.isLoading s /\
  App.generatedImages_ref s' = App.generatedImages_ref s.
Proof.
  unfold App.processFile, bind, emit, modify, try_catch.
  set (w0 := with_trace (fun l => l ++ [EditStarted file]) w).
  pose proof (edit_storage file prompt0 w0) as Hls.
  destruct (edit file prompt0 w0) as [c w1]. simpl in Hls.
  destruct c as [[u|]|e].
  - destruct (truthy u).
    + unfold now, ret. destruct handle as [h|].
      * match goal with
        | |- context [App.saveImageToFileSystem env ?h ?a ?b ?x] =>
            pose proof (saveImageToFileSystem_storage env h a b x) as Hsave;
            destruct (saveImageToFileSystem_frame env h a b x)
              as (w2 & Heq & _)
        end.
        rewrite Heq in Hsave |- *. simpl in Hsave.
        intros [= <- _ <-]. rewrite Hsave. simpl. rewrite Hls. repeat split.
      * intros [= <- _ <-]. simpl. rewrite Hls. repeat split.
    + intros [= <- _ <-]. simpl. rewrite Hls. repeat split.
  - intros [= <- _ <-]. simpl. rewrite Hls. repeat split.
  - cbn [console_error modify].
    destruct (message_mentions e "API Key" "API key");
      intros [= <- _ <-]; simpl; rewrite Hls; repeat split.
Qed.

Lemma forFiles_frame (prompt0 : string) (handle : option string)
  (files : list FileWithPreview) :
  forall (s : App.State) (run : list GeneratedImage) (w : World)
         (s' : App.State) (run' : list GeneratedImage) (w' : World),
    App.forFiles env edit prompt0 handle files (s, run) w
    = (Normal (s', run'), w') ->
    localStorage w' = localStorage w /\
    App.uploadedFiles s' = App.uploadedFiles s /\
    App.prompt s' = App.prompt s /\
    App.selectedImage s' = App.selectedImage s /\
    App.directoryHandle s' = App.directoryHandle s /\
    App.isLoading s' = App.isLoading s /\
    App.generatedImages_ref s' = App.generatedImages_ref s.
Proof.
  induction files as [|file rest IH]; intros s run w s' run' w'.
  - intros [= <- _ <-]. repeat split.
  - cbn [App.forFiles]. unfold bind at 1.
    destruct (App.processFile env edit prompt0 handle file (s, run) w)
      as [[[s1 run1]|e] w1] eqn:Hstep; [|discriminate].
    intros Hrest.
    destruct (processFile_frame _ _ _ _ _ _ _ _ _ Hstep)
      as (H1 & H2 & H3 & H4 & H5 & H6 & H7).
    destruct (IH _ _ _ _ _ _ Hrest) as (G1 & G2 & G3 & G4 & G5 & G6 & G7).
    repeat split; congruence.
Qed.

End LoopFrame.

(** A batch does not use the store: the free room is what it was. *)
Lemma editOf_room (env : Env) (client : Client) (f : FileWithPreview)
  (p : string) (w : World) :
  free (snd (editOf env client f p w)) = free w.
Proof.
  destruct client as [model|];
    unfold editOf, GeminiService.editImageWithPrompt,
      SrcGeminiService.editImageWithPrompt,
      GeminiService.getApiKey, SrcGeminiService.getApiKey, getItem, bind,
      try_catch, generateContent, readResponse, policyBlocked, bind,
      console_error, modify, throw, ret;
    repeat case_match; simplify_eq; reflexivity.
Qed.

Lemma saveImageToFileSystem_room (env : Env) (handle : option string)
  (u fileName : string) (w : World) :
  free (snd (App.saveImageToFileSystem env handle u fileName w)) = free w.
Proof.
  unfold App.saveImageToFileSystem, bind, console_error, alert, modify, ret.
  repeat case_match; reflexivity.
Qed.

Section LoopRoom.

Variable env : Env.
Variable edit : FileWithPreview -> string -> M (option string).

Hypothesis edit_room : forall f p w, free (snd (edit f p w)) = free w.

Lemma processFile_room (prompt0 : string) (handle : option string)
  (file : FileWithPreview) (acc : App.State * list GeneratedImage)
  (w : World) :
  free (snd (App.processFile env edit prompt0 handle file acc w)) = free w.
Proof.
  destruct acc as [s run].
  unfold App.processFile, bind, emit, modify, try_catch.
  set (w0 := with_trace (fun l => l ++ [EditStarted file]) w).
  pose proof (edit_room file prompt0 w0) as Hroom.
  destruct (edit file prompt0 w0) as [c w1]. simpl in Hroom.
  destruct c as [[u|]|e].
  - destruct (truthy u); [|simpl; exact Hroom].
    unfold now, ret. destruct handle as [h|]; [|simpl; exact Hroom].
    match goal with
    | |- context [App.saveImageToFileSystem env ?h ?a ?b ?x] =>
        pose proof (saveImageToFileSystem_room env h a b x) as Hsave;
        destruct (saveImageToFileSystem_frame env h a b x) as (w2 & Heq & _)
    end.
    rewrite Heq in Hsave |- *. simpl in Hsave |- *. rewrite Hsave.
    exact Hroom.
  - simpl. exact Hroom.
  - cbn [console_error modify].
    destruct (message_mentions e "API Key" "API key"); simpl; exact Hroom.
Qed.

Lemma forFiles_room (prompt0 : string) (handle : option string)
  (files : list FileWithPreview) :
  forall (acc : App.State * list GeneratedImage) (w : World),
    free (snd (App.forFiles env edit prompt0 handle files acc w)) = free w.
Proof.
  induction files as [|file rest IH]; intros acc w; [reflexivity|].
  cbn [App.forFiles]. unfold bind at 1.
  pose proof (processFile_room prompt0 handle file acc w) as Hstep.
  destruct (App.processFile env edit prompt0 handle file acc w)
    as [[acc1|e] w1]; simpl in Hstep.
  - rewrite IH. exact Hstep.
  - exact Hstep.
Qed.

End LoopRoom.

Lemma handleGenerate_room (env : Env) (client : Client) (s : App.State)
  (w : World) :
  free (snd (App.handleGenerate env (editOf env client) s w)) = free w.
Proof.
  unfold App.handleGenerate.
  destruct (negb (App.hasApiKey s)); [reflexivity|].
  destruct (List.length (App.uploadedFiles s) =? 0)%nat; [reflexivity|].
  destruct (App.trim_is_empty (App.prompt s)); [reflexivity|].
  unfold bind.
  match goal with
  | |- context [App.forFiles ?e ?ed ?p ?h ?fs ?acc ?x] =>
      pose proof (forFiles_room e ed (editOf_room env client) p h fs acc x)
        as Hroom;
      destruct (App.forFiles e ed p h fs acc x) as [[[s2 run]|err] w2]
  end; simpl in Hroom |- *; exact Hroom.
Qed.

(** A batch that passes the gate, followed by its render. *)
Lemma dispatch_handleGenerate_run (env : Env) (client : Client)
  (s : App.State) (w : World) :
  App.hasApiKey s = true ->
  App.uploadedFiles s <> [] ->
  App.trim_is_empty (App.prompt s) = false ->
  exists s' w1,
    App.handleGenerate env (editOf env client) s w = (Normal s', w1) /\
    App.dispatch (App.handleGenerate env (editOf env client)) s w
    = (Normal s', snd (App.persistEffect (App.generatedImages s') w1)) /\
    localStorage w1 = localStorage w /\
    App.uploadedFiles s' = App.uploadedFiles s /\
    App.prompt s' = App.prompt s /\
    App.selectedImage s' = App.selectedImage s /\
    App.directoryHandle s' = App.directoryHandle s /\
    App.isLoading s' = false.
Proof.
  intros Hkey Hfiles Hprompt.
  destruct (forFiles_run env (editOf env client) (editOf_frame env client)
              (App.prompt s) (App.directoryHandle s) (App.uploadedFiles s)
              (App.setError (fun _ => None) (App.setIsLoading true s)) [] w)
    as (s2 & recs & w2 & outcomes & Hrun & _).
  destruct (forFiles_frame env (editOf env client)
              (fun f p w => proj1 (editOf_storage env client f p w))
              _ _ _ _ _ _ _ _ _ Hrun)
    as (Hls & Hu & Hp & Hsel & Hdh & _ & Href).
  set (s' := App.setIsLoading false
               (App.setGeneratedImages (fun prev => recs ++ prev) s2)).
  assert (Hgen : App.handleGenerate env (editOf env client) s w = (Normal s', w2)).
  { unfold App.handleGenerate. rewrite Hkey, Hprompt. cbn [negb].
    destruct (App.uploadedFiles s) as [|f files] eqn:Hup; [congruence|].
    cbn [List.length Nat.eqb]. unfold bind. rewrite Hrun. reflexivity. }
  exists s', w2. split; [exact Hgen|].
  split.
  { unfold App.dispatch, bind. rewrite Hgen.
    rewrite commit_fresh_ref by (subst s'; simpl; rewrite Href; reflexivity).
    rewrite persistEffect_run. reflexivity. }
  subst s'.
  cbn [App.uploadedFiles App.prompt App.selectedImage App.directoryHandle
         App.isLoading App.setIsLoading App.setGeneratedImages].
  rewrite Hls, Hu, Hp, Hsel, Hdh. repeat split.
Qed.

(** X18.  After a batch that passes the gate and the render that follows,
    the stored gallery entry agrees with the gallery on screen if the store
    accepts its text; if the store refuses it, storage is what it was and,
    the gallery being non-empty, the last console line reports the failed
    save.  Either way no other storage entry has changed (the key and the
    model are as before), and the uploads, the prompt and the open detail
    view are what they were: a batch does not clear its inputs. *)
Theorem generated_batch_is_persisted (env : Env) (client : Client)
  (s : App.State) (w : World) :
  App.hasApiKey s = true ->
  App.uploadedFiles s <> [] ->
  App.trim_is_empty (App.prompt s) = false ->
  exists s' w',
    App.dispatch (App.handleGenerate env (editOf env client)) s w
    = (Normal s', w') /\
    (store_accepts w "generatedImages"
       (JSON.stringify (App.generatedImages s')) = true ->
     storage_reflects (localStorage w') (App.generatedImages s')) /\
    (store_accepts w "generatedImages"
       (JSON.stringify (App.generatedImages s')) = false ->
     localStorage w' = localStorage w /\
     (App.generatedImages s' <> [] ->
      last (console w') = Some "Failed to save images to localStorage:")) /\
    (forall k, k <> "generatedImages" ->
               localStorage w' !! k = localStorage w !! k) /\
    App.uploadedFiles s' = App.uploadedFiles s /\
    App.prompt s' = App.prompt s /\
    App.selectedImage s' = App.selectedImage s /\
    App.isLoading s' = false.
Proof.
  intros Hkey Hfiles Hprompt.
  destruct (dispatch_handleGenerate_run env client s w Hkey Hfiles Hprompt)
    as (s' & w1 & Hgen & Hrun & Hls & Hu & Hp & Hsel & _ & Hload).
  pose proof (handleGenerate_room env client s w) as Hroom.
  rewrite Hgen in Hroom. cbn [snd] in Hroom.
  exists s', (snd (App.persistEffect (App.generatedImages s') w1)).
  split; [exact Hrun|].
  rewrite persistEffect_run. cbn [snd].
  rewrite (store_accepts_ext w w1) by assumption.
  split; [|split].
  - intros Hacc. rewrite Hacc. unfold storage_reflects.
    destruct (App.generatedImages s') as [|img rest].
    + cbn [orb].
      destruct (truthy_opt (localStorage w1 !! "generatedImages")) eqn:Hstored.
      * left. apply stored_cells.
      * right. split; [reflexivity|exact Hstored].
    + left. apply stored_cells.
  - intros Hacc. rewrite Hacc. split.
    + destruct (_ || _); exact Hls.
    + intros Hne. destruct (App.generatedImages s'); [congruence|].
      cbn [orb console with_console]. apply last_snoc.
  - split.
    { intros k Hk.
      pose proof (persistEffect_cells (App.generatedImages s') w1)
        as (_ & _ & Hother).
      rewrite persistEffect_run in Hother. cbn [snd] in Hother.
      rewrite (store_accepts_ext w w1) in Hother by assumption.
      rewrite (Hother k Hk), Hls. reflexivity. }
    repeat split; assumption.
Qed.

Lemma generated_batch_is_persisted_witness :
  exists s' w',
    App.dispatch
      (App.handleGenerate Sample.env_image (editOf Sample.env_image SrcRevision))
      (Sample.ready [Sample.a_png]) Sample.world_with_key
    = (Normal s', w') /\
    storage_reflects (localStorage w') (App.generatedImages s') /\
    App.uploadedFiles s' = [Sample.a_png] /\
    App.prompt s' = "make it blue" /\
    App.selectedImage s' = None /\
    App.isLoading s' = false.
Proof.
  destruct (generated_batch_is_persisted Sample.env_image SrcRevision
              (Sample.ready [Sample.a_png]) Sample.world_with_key
              eq_refl ltac:(discriminate) eq_refl)
    as (s' & w' & Hrun & Hacc & _ & _ & Hu & Hp & Hsel & Hload).
  exists s', w'. split; [exact Hrun|].
  split; [|repeat split; assumption].
  apply Hacc. vm_compute in Hrun. injection Hrun as <- _.
  vm_compute. reflexivity.
Defined.

Lemma no_key_message_mentions_key :
  message_mentions (new_Error msg_no_key) "API Key" "API key" = true.
Proof. vm_compute. reflexivity. Qed.

(** The loop when storage holds no usable key: every file fails locally. *)
Lemma forFiles_no_key (env : Env) (client : Client) (prompt0 : string)
  (handle : option string) (files : list FileWithPreview) :
  forall (s : App.State) (run : list GeneratedImage) (w : World),
    truthy_opt (localStorage w !! "geminiApiKey") = false ->
    exists s' w',
      App.forFiles env (editOf env client) prompt0 handle files (s, run) w
      = (Normal (s', run), w') /\
      requests w' = requests w /\
      localStorage w' = localStorage w /\
      alerts w' = alerts w /\
      saved w' = saved w /\
      App.error s'
      = fold_left (fun e m => App.appendError m e)
          (List.map (fun f => App.msg_failed f (new_Error msg_no_key)) files)
          (App.error s) /\
      App.generatedImages s' = App.generatedImages s /\
      App.hasApiKey s'
      = match files with [] => App.hasApiKey s | _ :: _ => false end /\
      App.isSettingsOpen s'
      = match files with [] => App.isSettingsOpen s | _ :: _ => true end.
Proof.
  induction files as [|file rest IH]; intros s run w Hkey.
  - exists s, w. repeat split.
  - cbn [App.forFiles]. unfold bind at 1.
    unfold App.processFile, bind, emit, modify, try_catch.
    rewrite (editOf_no_key env client file prompt0
               (with_trace (fun l => l ++ [EditStarted file]) w) Hkey).
    cbn [console_error modify]. rewrite no_key_message_mentions_key.
    unfold ret at 1. cbv beta iota.
    match goal with
    | |- context [App.forFiles _ _ _ _ rest (?s1, run) ?w1] =>
        destruct (IH s1 run w1 Hkey)
          as (s' & w' & Hrun & Hrq & Hls & Hal & Hsv & Herr & Hg & Hk & Ho)
    end.
    exists s', w'. split; [exact Hrun|].
    simpl in Hrq, Hls, Hal, Hsv, Herr, Hg, Hk, Ho.
    repeat split; try assumption.
    + destruct rest; assumption.
    + destruct rest; assumption.
Qed.

(** X19.  When the key flag is on but storage holds no usable key (the
    entry was cleared behind the session), a batch sends no request at all:
    every file fails with the configuration error, the error text lists one
    such message per file in upload order, the key flag is switched off and
    the settings panel opened, and the gallery, storage and alerts are
    untouched. *)
Theorem batch_without_stored_key (env : Env) (client : Client)
  (s : App.State) (w : World) :
  App.hasApiKey s = true ->
  App.uploadedFiles s <> [] ->
  App.trim_is_empty (App.prompt s) = false ->
  truthy_opt (localStorage w !! "geminiApiKey") = false ->
  exists s' w',
    App.handleGenerate env (editOf env client) s w = (Normal s', w') /\
    requests w' = requests w /\
    localStorage w' = localStorage w /\
    alerts w' = alerts w /\
    App.error s'
    = Some (join LF
              (List.map (fun f => App.msg_failed f (new_Error msg_no_key))
                 (App.uploadedFiles s))) /\
    App.hasApiKey s' = false /\
    App.isSettingsOpen s' = true /\
    App.generatedImages s' = App.generatedImages s /\
    App.isLoading s' = false.
Proof.
  intros Hflag Hfiles Hprompt Hkey.
  unfold App.handleGenerate. rewrite Hflag, Hprompt. cbn [negb].
  destruct (App.uploadedFiles s) as [|f files] eqn:Hup; [congruence|].
  cbn [List.length Nat.eqb].
  destruct (forFiles_no_key env client (App.prompt s) (App.directoryHandle s)
              (f :: files)
              (App.setError (fun _ => None) (App.setIsLoading true s)) [] w Hkey)
    as (s' & w' & Hrun & Hrq & Hls & Hal & _ & Herr & Hg & Hk & Ho).
  unfold bind. rewrite Hrun.
  eexists _, w'. split; [reflexivity|].
  cbn [App.error App.hasApiKey App.isSettingsOpen App.generatedImages
         App.isLoading App.setIsLoading App.setGeneratedImages app].
  rewrite Herr, Hg, Hk, Ho.
  cbn [App.error App.generatedImages App.setError App.setIsLoading].
  rewrite fold_appendError.
  - repeat split; assumption.
  - apply List.Forall_forall. intros m Hm. apply in_map_iff in Hm.
    destruct Hm as (file & <- & _). reflexivity.
Qed.

Lemma batch_without_stored_key_witness :
  exists s' w',
    App.handleGenerate Sample.env_image (editOf Sample.env_image SrcRevision)
      (Sample.ready [Sample.a_png; Sample.b_png]) (Sample.world_of ∅)
    = (Normal s', w') /\
    requests w' = [] /\
    localStorage w' = ∅ /\
    alerts w' = [] /\
    App.error s'
    = Some (join LF
              (List.map (fun f => App.msg_failed f (new_Error msg_no_key))
                 [Sample.a_png; Sample.b_png])) /\
    App.hasApiKey s' = false /\
    App.isSettingsOpen s' = true /\
    App.generatedImages s' = [] /\
    App.isLoading s' = false.
Proof.
  apply (batch_without_stored_key Sample.env_image SrcRevision
           (Sample.ready [Sample.a_png; Sample.b_png]) (Sample.world_of ∅)).
  - reflexivity.
  - discriminate.
  - reflexivity.
  - vm_compute. reflexivity.
Defined.

(** X20.  The generate button and the gate of [handleGenerate] agree.
    When the button is enabled a click starts the batch: at least one edit
    call is awaited and none of the three precondition messages is set.
    When the button is disabled although no batch is running, a call of
    the handler is refused with one of the three precondition messages and
    the world untouched. *)
Theorem generate_button_matches_gate (env : Env) (client : Client)
  (s : App.State) (w : World) :
  (App.generateDisabled s = false ->
   exists s' w' outcomes,
     App.handleGenerate env (editOf env client) s w = (Normal s', w') /\
     outcomes <> [] /\
     trace w' = trace w ++ events_of outcomes /\
     App.error s' <> Some App.msg_need_key /\
     App.error s' <> Some App.msg_need_file /\
     App.error s' <> Some App.msg_need_prompt) /\
  (App.generateDisabled s = true -> App.isLoading s = false ->
   exists s',
     App.handleGenerate env (editOf env client) s w = (Normal s', w) /\
     (App.error s' = Some App.msg_need_key \/
      App.error s' = Some App.msg_need_file \/
      App.error s' = Some App.msg_need_prompt)).
Proof.
  unfold App.generateDisabled. split.
  - intros Hen.
    apply orb_false_iff in Hen as [Hen Hkey].
    apply orb_false_iff in Hen as [Hen Hprompt].
    apply orb_false_iff in Hen as [_ Hfiles].
    apply negb_false_iff in Hkey.
    assert (Hne : App.uploadedFiles s <> [])
      by (destruct (App.uploadedFiles s); [discriminate|congruence]).
    destruct (handleGenerate_run env (editOf env client)
                (editOf_frame env client) s w Hkey Hne Hprompt)
      as (s' & recs & w' & outcomes & Hrun & Hmap & Htr & _ & Herr & _).
    exists s', w', outcomes. split; [exact Hrun|].
    split; [intros ->; simpl in Hmap; congruence|].
    split; [exact Htr|].
    rewrite Herr.
    pose proof (failure_message_truthy outcomes) as Hall.
    destruct (omap failure_message outcomes) as [|m msgs] eqn:Hmsgs;
      [repeat split; discriminate|].
    assert (Hhead : exists o, In o outcomes /\ failure_message o = Some m).
    { assert (Hin : m ∈ omap failure_message outcomes)
        by (rewrite Hmsgs; left).
      apply list_elem_of_omap in Hin. destruct Hin as (o & Ho & Hm).
      exists o. split; [apply list_elem_of_In, Ho|exact Hm]. }
    destruct Hhead as ([f c] & _ & Hm).
    assert (Hm0 : exists c0 rest0, m = String c0 rest0 /\ c0 <> "V"%char).
    { destruct c as [[u|]|e]; simpl in Hm;
        [destruct (truthy u); [discriminate|]| |];
        injection Hm as <-; eexists _, _; (split; [reflexivity|discriminate]). }
    destruct Hm0 as (c0 & rest0 & -> & Hc0).
    unfold App.msg_need_key, App.msg_need_file, App.msg_need_prompt, join.
    repeat split; intros [= Heq]; destruct msgs; cbn [JSON.join] in Heq;
      rewrite ?append_cons in Heq; injection Heq as Hc _; congruence.
  - intros Hdis Hload. unfold App.handleGenerate.
    rewrite Hload in Hdis. cbn [orb] in Hdis.
    destruct (App.hasApiKey s); cbn [negb].
    + destruct ((List.length (App.uploadedFiles s) =? 0)%nat).
      * eexists. split; [reflexivity|]. right. left. reflexivity.
      * cbn [orb] in Hdis. rewrite orb_false_r in Hdis. rewrite Hdis.
        eexists. split; [reflexivity|]. right. right. reflexivity.
    + eexists. split; [reflexivity|]. left. reflexivity.
Qed.

Lemma snoc_neq {A : Type} (l : list A) (x : A) : l ++ [x] <> l.
Proof.
  intros Heq. apply (f_equal (@List.length A)) in Heq.
  rewrite length_app in Heq. simpl in Heq. lia.
Qed.

(** X21.  Running the persistence effect again on the same gallery never
    throws and leaves storage and the free room as the first run left them:
    a text that was written is written again unchanged, and a text that was
    refused is refused again.  The console is the part that is not
    idempotent: when the first run logged nothing the second logs nothing,
    and when the first run logged a failed save the second logs it once
    more. *)
Theorem persistEffect_idempotent (images : list GeneratedImage) (w : World) :
  let w1 := snd (App.persistEffect images w) in
  let w2 := snd (App.persistEffect images w1) in
  fst (App.persistEffect images w1) = Normal tt /\
  localStorage w2 = localStorage w1 /\
  free w2 = free w1 /\
  alerts w2 = alerts w1 /\
  (console w1 = console w -> w2 = w1) /\
  (console w1 <> console w ->
   localStorage w1 = localStorage w /\
   console w1 = console w ++ ["Failed to save images to localStorage:"] /\
   console w2 = console w1 ++ ["Failed to save images to localStorage:"]).
Proof.
  cbv zeta. rewrite !persistEffect_run. cbn [fst snd].
  split; [reflexivity|].
  destruct (match images with [] => false | _ :: _ => true end
            || truthy_opt (localStorage w !! "generatedImages")) eqn:Hgo.
  - destruct (store_accepts w "generatedImages" (JSON.stringify images))
      eqn:Hacc.
    + rewrite (proj1 (stored_cells "generatedImages" (JSON.stringify images) w)).
      change (truthy_opt (Some (JSON.stringify images))) with true.
      rewrite orb_true_r.
      assert (Hagain :
                stored "generatedImages" (JSON.stringify images)
                  (stored "generatedImages" (JSON.stringify images) w)
                = stored "generatedImages" (JSON.stringify images) w).
      { unfold stored.
        generalize (JSON.stringify images). intros text.
        unfold with_free, with_localStorage.
        cbn [localStorage free console alerts requests clock_reads saved
               trace].
        rewrite lookup_insert_eq, insert_insert_eq. cbn [entry_size].
        f_equal. lia. }
      assert (Hfits :
                store_accepts
                  (stored "generatedImages" (JSON.stringify images) w)
                  "generatedImages" (JSON.stringify images) = true).
      { unfold store_accepts.
        rewrite (proj1 (stored_cells "generatedImages"
                          (JSON.stringify images) w)).
        cbn [entry_size]. apply N.leb_le. lia. }
      rewrite Hfits, Hagain.
      split; [reflexivity|]. split; [reflexivity|]. split; [reflexivity|].
      split; [reflexivity|].
      intros Hne. exfalso. apply Hne. apply stored_cells.
    + cbn [localStorage with_console]. rewrite Hgo.
      rewrite (store_accepts_ext w) by reflexivity. rewrite Hacc.
      split; [reflexivity|]. split; [reflexivity|]. split; [reflexivity|].
      split.
      * cbn [console with_console]. intros Heq.
        destruct (snoc_neq _ _ Heq).
      * intros _. repeat split.
  - rewrite Hgo.
    split; [reflexivity|]. split; [reflexivity|]. split; [reflexivity|].
    split; [reflexivity|]. intros Hne. congruence.
Qed.

(* ===================================================================== *)
(** ** The download name *)
(* ===================================================================== *)

Lemma length_string_of_list_ascii (l : list ascii) :
  String.length (string_of_list_ascii l) = List.length l.
Proof. induction l as [|c l IH]; simpl; [reflexivity|]. rewrite IH. reflexivity. Qed.

(** Every character [safe_unit] produces is an underscore, a digit or a
    lower-case letter. *)
Lemma safe_unit_allowed (u : option ascii) :
  let n := N_of_ascii (App.safe_unit u) in
  (n = 95 \/ 48 <= n <= 57 \/ 97 <= n <= 122)%N.
Proof.
  destruct u as [c|]; [|left; reflexivity].
  destruct c as [[] [] [] [] [] [] [] []]; vm_compute;
    first [left; reflexivity
          | right; left; split; discriminate
          | right; right; split; discriminate].
Qed.

Example safePrompt_non_ascii :
  App.safePrompt "Tô màu XANH!" = "t__m_u_xanh_".
Proof. vm_compute. reflexivity. Qed.

(** X22.  The file name [handleDownloadImage] offers is
    [gemini_<stem>_<tag>.png], where the stem is the original file name up
    to its first dot and the tag is made from the prompt: the tag has one
    character per UTF-16 code unit of the prompt, at most 20, and consists
    only of digits, lower-case ASCII letters and underscores.  The link
    points at the record's URL; without a selection there is no link. *)
Theorem download_name_is_sanitized (s : App.State) :
  (App.selectedImage s = None -> App.handleDownloadImage s = None) /\
  (forall img,
      App.selectedImage s = Some img ->
      let tag := App.safePrompt (Types.prompt img) in
      App.handleDownloadImage s
      = Some (Types.url img,
              "gemini_" +:+ App.upto_dot (Types.originalFileName img)
              +:+ "_" +:+ tag +:+ ".png") /\
      String.length tag
      = Nat.min 20 (List.length (App.code_units (Types.prompt img))) /\
      (forall c, In c (list_ascii_of_string tag) ->
                 let n := N_of_ascii c in
                 (n = 95 \/ 48 <= n <= 57 \/ 97 <= n <= 122)%N)).
Proof.
  unfold App.handleDownloadImage. split; [intros ->; reflexivity|].
  intros img ->. cbv zeta. split; [reflexivity|].
  unfold App.safePrompt. split.
  - rewrite length_string_of_list_ascii, length_map, length_firstn. reflexivity.
  - intros c Hc. rewrite list_ascii_of_string_of_list_ascii in Hc.
    apply in_map_iff in Hc. destruct Hc as (u & <- & _).
    apply safe_unit_allowed.
Qed.

(* ===================================================================== *)
(** ** More on the handlers the claims cover *)
(* ===================================================================== *)

(** X23.  After a batch that passes the gate, the key flag is off exactly
    when some edit call of the batch threw an error whose message mentions
    [API Key] or [API key]; the settings panel is then open, and otherwise
    stays as it was.  The flag is never switched back on by a later file of
    the same batch, and the remaining files are still attempted. *)
Theorem batch_key_flag_follows_errors (env : Env) (client : Client)
  (s : App.State) (w : World) :
  App.hasApiKey s = true ->
  App.uploadedFiles s <> [] ->
  App.trim_is_empty (App.prompt s) = false ->
  exists s' w' outcomes,
    App.handleGenerate env (editOf env client) s w = (Normal s', w') /\
    List.map fst outcomes = App.uploadedFiles s /\
    trace w' = trace w ++ events_of outcomes /\
    App.hasApiKey s' = negb (existsb mentions_key outcomes) /\
    App.isSettingsOpen s'
    = (existsb mentions_key outcomes || App.isSettingsOpen s).
Proof.
  intros Hkey Hfiles Hprompt.
  destruct (handleGenerate_run env (editOf env client) (editOf_frame env client)
              s w Hkey Hfiles Hprompt)
    as (s' & recs & w' & outcomes & Hrun & Hmap & Htr & _ & _ & _ & _ & _
        & Hk & Ho).
  exists s', w', outcomes. repeat split; assumption.
Qed.

Lemma batch_key_flag_follows_errors_witness :
  exists s' w' outcomes,
    App.handleGenerate (Sample.env_rejecting "API_KEY_INVALID")
      (editOf (Sample.env_rejecting "API_KEY_INVALID") SrcRevision)
      (Sample.ready [Sample.a_png; Sample.b_png]) Sample.world_with_key
    = (Normal s', w') /\
    List.map fst outcomes = [Sample.a_png; Sample.b_png] /\
    trace w' = [] ++ events_of outcomes /\
    App.hasApiKey s' = negb (existsb mentions_key outcomes) /\
    App.isSettingsOpen s' = (existsb mentions_key outcomes || false).
Proof.
  exact (batch_key_flag_follows_errors (Sample.env_rejecting "API_KEY_INVALID")
           SrcRevision (Sample.ready [Sample.a_png; Sample.b_png])
           Sample.world_with_key eq_refl ltac:(discriminate) eq_refl).
Defined.

(** X24.  Deleting without anything to delete is a no-op: with no record
    selected, or a selected record whose id is the empty string,
    [handleDeleteImage] and the render after it leave the state and the
    world exactly as they were (no alert, no write).  And a deletion that
    went through closes the detail view, so repeating it changes nothing
    more. *)
Theorem handleDeleteImage_noop_and_once (s : App.State) (w : World) :
  ((App.selectedImage s = None \/
    exists sel, App.selectedImage s = Some sel /\ Types.id sel = EmptyString) ->
   App.dispatch App.handleDeleteImage s w = (Normal s, w)) /\
  (forall sel s' w',
      App.selectedImage s = Some sel ->
      Types.id sel <> EmptyString ->
      App.dispatch App.handleDeleteImage s w = (Normal s', w') ->
      List.length (alerts w') = S (List.length (alerts w)) /\
      App.dispatch App.handleDeleteImage s' w' = (Normal s', w')).
Proof.
  split.
  - intros [Hnone|(sel & Hsel & Hid)];
      unfold App.dispatch, App.handleDeleteImage, bind, ret.
    + rewrite Hnone. rewrite commit_same_ref by reflexivity. reflexivity.
    + rewrite Hsel, Hid. cbn [truthy].
      rewrite commit_same_ref by reflexivity. reflexivity.
  - intros sel s' w' Hsel Hid Hrun.
    rewrite (dispatch_handleDeleteImage_run s w sel Hsel Hid) in Hrun.
    injection Hrun as <- <-.
    split.
    + match goal with
      | |- context [snd (App.persistEffect ?g ?x)] =>
          destruct (persistEffect_cells g x) as (Hal & _); rewrite Hal
      end.
      simpl. rewrite length_app. simpl. lia.
    + unfold App.dispatch, App.handleDeleteImage, bind, ret.
      cbn [App.selectedImage App.setSelectedImage].
      rewrite commit_same_ref by reflexivity. reflexivity.
Qed.

(** X25.  [removeFile] changes nothing but the upload list, removing a name
    twice is the same as removing it once, removals of two names commute,
    and removing a name that no upload has leaves the state as it is up to
    the identity of the list. *)
Theorem removeFile_composes (a b : string) (s : App.State) :
  App.removeFile a (App.removeFile a s) = App.removeFile a s /\
  App.removeFile a (App.removeFile b s) = App.removeFile b (App.removeFile a s) /\
  App.generatedImages (App.removeFile a s) = App.generatedImages s /\
  App.selectedImage (App.removeFile a s) = App.selectedImage s /\
  App.error (App.removeFile a s) = App.error s /\
  (Forall (fun f : FileWithPreview => Types.name f <> a) (App.uploadedFiles s) ->
   App.uploadedFiles (App.removeFile a s) = App.uploadedFiles s).
Proof.
  unfold App.removeFile, App.setUploadedFiles. cbn.
  split; [|split; [|split; [|split; [|split]]]]; try reflexivity.
  - f_equal.
    apply (filter_key_id (fun f : FileWithPreview => Types.name f) a).
    apply (filter_key_Forall (fun f : FileWithPreview => Types.name f) a).
  - f_equal. induction (App.uploadedFiles s) as [|f files IH]; [reflexivity|].
    cbn [List.filter].
    destruct (negb (Types.name f =? a)%string) eqn:Ha;
      destruct (negb (Types.name f =? b)%string) eqn:Hb;
      cbn [List.filter]; rewrite ?Ha, ?Hb, IH; reflexivity.
  - intros Hall.
    apply (filter_key_id (fun f : FileWithPreview => Types.name f) a), Hall.
Qed.

(** X26.  A start without a stored gallery creates none: when storage has
    no gallery entry, [mount] ends with an empty gallery, still no entry,
    no alert and no request, whatever the key entry holds. *)
Theorem mount_without_gallery_creates_none (env : Env) (w : World) :
  localStorage w !! "generatedImages" = None ->
  exists s2 w2,
    App.mount env w = (Normal s2, w2) /\
    App.generatedImages s2 = [] /\
    localStorage w2 = localStorage w /\
    alerts w2 = alerts w /\
    requests w2 = requests w.
Proof.
  intros Hnone.
  destruct (keyEffect_cells env App.initialState w)
    as (s1 & w1 & Hkey & Hls1 & Hal1 & Hrq1 & Hg1 & Hr1 & _).
  unfold App.mount, bind. rewrite Hkey.
  unfold App.hydrateEffect, bind, getItem, ret. rewrite Hls1, Hnone.
  rewrite persistEffect_run. cbn [App.generatedImages App.initialState orb].
  rewrite Hls1, Hnone. cbn [truthy_opt].
  rewrite commit_same_ref by (rewrite Hr1; reflexivity).
  exists s1, w1. repeat split; assumption.
Qed.

Lemma mount_without_gallery_creates_none_witness :
  exists s2 w2,
    App.mount Sample.env_image Sample.world_with_key = (Normal s2, w2) /\
    App.generatedImages s2 = [] /\
    localStorage w2 = localStorage Sample.world_with_key /\
    alerts w2 = [] /\
    requests w2 = [].
Proof.
  apply (mount_without_gallery_creates_none Sample.env_image
           Sample.world_with_key).
  vm_compute. reflexivity.
Defined.
